(** * API usage limiter and credentials manager

    A shallow embedding of [project_script_files/api_limits.py] and
    [project_script_files/api_credentials.py].

    The Python objects the two classes touch are made explicit: the limiter
    instance ([self]), Streamlit's [st.session_state], the file system behind
    [storage_path], the process environment read by [os.getenv], and the
    messages handed to Streamlit ([st.warning], [st.error], [st.sidebar]).
    Every method is a computation over that state that either returns a value
    or raises a Python exception; what was mutated before an exception stays
    mutated. *)

From Stdlib Require Import ZArith Ascii String List.
From stdpp Require Import base option gmap strings list pretty.

Local Open Scope string_scope.
Local Open Scope Z_scope.
#[local] Set Warnings "-register-all".

(* ===================================================================== *)
(** ** Python values *)
(* ===================================================================== *)

(** The values [json.load] can return, floats apart: the usage file holds a
    date string and an integer counter, and nothing in the two modules
    computes with a float read from a file. A [dict] keeps its keys in
    insertion order. *)
Inductive pyval : Type :=
  | PyNone
  | PyBool (b : bool)
  | PyInt (n : Z)
  | PyStr (s : string)
  | PyList (items : list pyval)
  | PyDict (entries : list (string * pyval)).

(** The exceptions that can travel through the two modules. [OSError],
    [JSONDecodeError] and [UnicodeDecodeError] come from the libraries with
    the library's message; the others are raised by the language itself. *)
Inductive exn : Type :=
  | KeyError (key : string)
  | TypeError (msg : string)
  | AttributeError (name : string)
  | ZeroDivisionError
  | OSError (msg : string)
  | UnicodeDecodeError (msg : string)
  | JSONDecodeError (msg : string).

Inductive result (A : Type) : Type :=
  | Ok (a : A)
  | Raise (e : exn).
Arguments Ok {A} a.
Arguments Raise {A} e.

Definition type_name (v : pyval) : string :=
  match v with
  | PyNone => "NoneType"
  | PyBool _ => "bool"
  | PyInt _ => "int"
  | PyStr _ => "str"
  | PyList _ => "list"
  | PyDict _ => "dict"
  end.

(** [d.get(k)] on an insertion-ordered dict. *)
Fixpoint dict_get (k : string) (d : list (string * pyval)) : option pyval :=
  match d with
  | [] => None
  | (k', v) :: d' => if decide (k' = k) then Some v else dict_get k d'
  end.

(** [d[k] = v]: an existing key keeps its place, a new key goes last. *)
Fixpoint dict_set (k : string) (v : pyval) (d : list (string * pyval))
  : list (string * pyval) :=
  match d with
  | [] => [(k, v)]
  | (k', v') :: d' =>
      if decide (k' = k) then (k, v) :: d' else (k', v') :: dict_set k v d'
  end.

(** [v[key]] for a string key. Only a dict can be indexed by a string; a
    missing key is a [KeyError], any other receiver a [TypeError]. *)
Definition getitem (v : pyval) (key : string) : result pyval :=
  match v with
  | PyDict d =>
      match dict_get key d with
      | Some x => Ok x
      | None => Raise (KeyError key)
      end
  | PyList _ =>
      Raise (TypeError "list indices must be integers or slices, not str")
  | PyStr _ =>
      Raise (TypeError "string indices must be integers, not 'str'")
  | _ =>
      Raise (TypeError ("'" +:+ type_name v +:+ "' object is not subscriptable"))
  end.

(** [v[key] = x] for a string key. *)
Definition setitem (v : pyval) (key : string) (x : pyval) : result pyval :=
  match v with
  | PyDict d => Ok (PyDict (dict_set key x d))
  | PyList _ =>
      Raise (TypeError "list indices must be integers or slices, not str")
  | _ =>
      Raise (TypeError
               ("'" +:+ type_name v +:+ "' object does not support item assignment"))
  end.

(** The integer a value stands for in arithmetic and ordering with an [int]:
    [bool] is a subclass of [int]. *)
Definition as_int (v : pyval) : option Z :=
  match v with
  | PyInt n => Some n
  | PyBool b => Some (if b then 1 else 0)
  | _ => None
  end.

(** [v >= limit] with [limit] an [int]. *)
Definition py_ge_int (v : pyval) (limit : Z) : result bool :=
  match as_int v with
  | Some n => Ok (limit <=? n)
  | None =>
      Raise (TypeError ("'>=' not supported between instances of '"
                        +:+ type_name v +:+ "' and 'int'"))
  end.

(** [v + 1], the value [v += 1] stores. *)
Definition py_add_one (v : pyval) : result pyval :=
  match as_int v with
  | Some n => Ok (PyInt (n + 1))
  | None =>
      Raise (TypeError ("unsupported operand type(s) for +=: '"
                        +:+ type_name v +:+ "' and 'int'"))
  end.

(** [v != s] with [s] a [str]: values of another type are never equal to a
    string, and the comparison itself never raises. *)
Definition py_ne_str (v : pyval) (s : string) : bool :=
  match v with
  | PyStr s' => negb (bool_decide (s' = s))
  | _ => true
  end.

(** Truthiness, as [if x:] tests it. *)
Definition truthy (v : pyval) : bool :=
  match v with
  | PyNone => false
  | PyBool b => b
  | PyInt n => negb (n =? 0)
  | PyStr s => negb (bool_decide (s = EmptyString))
  | PyList l => match l with [] => false | _ => true end
  | PyDict d => match d with [] => false | _ => true end
  end.

(* ===================================================================== *)
(** ** The [json] module *)
(* ===================================================================== *)

(** [json.load] on the text of a file and [json.dump] of a value are the
    standard library's; the limiter is verified against any pair of them. *)
Class JsonLib : Type := {
  json_load : string -> result pyval;
  json_dump : pyval -> string
}.

(** A reader and a writer for the part of JSON the usage file is written in:
    objects, arrays, strings without escape sequences, integers, [true],
    [false] and [null], with the separators [json.dump] emits by default.
    They give the statements below a concrete [json] to run on; the
    decoder's message carries no position. *)
Module MiniJson.

Inductive token : Type :=
  | TLBrace | TRBrace | TLBrack | TRBrack | TColon | TComma
  | TStr (s : string) | TInt (n : Z) | TTrue | TFalse | TNull.

Definition dquote : ascii := "034"%char.

Definition is_ws (c : ascii) : bool :=
  match c with
  | " "%char | "009"%char | "010"%char | "013"%char => true
  | _ => false
  end.

Definition digit_of (c : ascii) : option Z :=
  let n := Z.of_nat (nat_of_ascii c) in
  if (48 <=? n) && (n <=? 57) then Some (n - 48) else None.

Definition starts_with_digit (cs : string) : bool :=
  match cs with
  | String c _ => match digit_of c with Some _ => true | None => false end
  | EmptyString => false
  end.

Definition starts_fraction (cs : string) : bool :=
  match cs with
  | String "."%char _ | String "e"%char _ | String "E"%char _ => true
  | _ => false
  end.

Fixpoint strip_prefix (p cs : string) : option string :=
  match p, cs with
  | EmptyString, _ => Some cs
  | String a p', String c cs' =>
      if decide (a = c) then strip_prefix p' cs' else None
  | String _ _, EmptyString => None
  end.

(** The body of a string literal, up to its closing quote. *)
Fixpoint lex_string (cs : string) : option (string * string) :=
  match cs with
  | EmptyString => None
  | String c r =>
      if decide (c = dquote) then Some (EmptyString, r)
      else if decide (c = "\"%char) then None
      else if Z.of_nat (nat_of_ascii c) <? 32 then None
      else match lex_string r with
           | Some (body, rest) => Some (String c body, rest)
           | None => None
           end
  end.

Fixpoint lex_digits (cs : string) (acc : Z) : Z * string :=
  match cs with
  | String c r =>
      match digit_of c with
      | Some d => lex_digits r (10 * acc + d)
      | None => (acc, cs)
      end
  | EmptyString => (acc, cs)
  end.

(** An unsigned integer literal: no leading zero, no fraction or exponent. *)
Definition lex_number (cs : string) : option (Z * string) :=
  match cs with
  | String c r =>
      match digit_of c with
      | Some d =>
          let '(n, rest) := if d =? 0 then (0, r) else lex_digits r d in
          if starts_with_digit rest || starts_fraction rest then None
          else Some (n, rest)
      | None => None
      end
  | EmptyString => None
  end.

Definition lex_word (w : string) (t : token) (r : string)
    (k : string -> option (list token)) : option (list token) :=
  match strip_prefix w r with
  | Some rest => cons t <$> k rest
  | None => None
  end.

Fixpoint lex (fuel : nat) (cs : string) : option (list token) :=
  match cs, fuel with
  | EmptyString, _ => Some []
  | String _ _, O => None
  | String c r, S f =>
      if is_ws c then lex f r
      else match c with
           | "{"%char => cons TLBrace <$> lex f r
           | "}"%char => cons TRBrace <$> lex f r
           | "["%char => cons TLBrack <$> lex f r
           | "]"%char => cons TRBrack <$> lex f r
           | ":"%char => cons TColon <$> lex f r
           | ","%char => cons TComma <$> lex f r
           | "t"%char => lex_word "rue" TTrue r (lex f)
           | "f"%char => lex_word "alse" TFalse r (lex f)
           | "n"%char => lex_word "ull" TNull r (lex f)
           | "-"%char =>
               match lex_number r with
               | Some (n, rest) => cons (TInt (- n)) <$> lex f rest
               | None => None
               end
           | _ =>
               if decide (c = dquote) then
                 match lex_string r with
                 | Some (s, rest) => cons (TStr s) <$> lex f rest
                 | None => None
                 end
               else
                 match lex_number cs with
                 | Some (n, rest) => cons (TInt n) <$> lex f rest
                 | None => None
                 end
           end
  end.

Fixpoint parse_value (fuel : nat) (ts : list token)
    : option (pyval * list token) :=
  match fuel with
  | O => None
  | S f =>
      match ts with
      | TNull :: r => Some (PyNone, r)
      | TTrue :: r => Some (PyBool true, r)
      | TFalse :: r => Some (PyBool false, r)
      | TInt n :: r => Some (PyInt n, r)
      | TStr s :: r => Some (PyStr s, r)
      | TLBrack :: TRBrack :: r => Some (PyList [], r)
      | TLBrack :: r => parse_elems f r []
      | TLBrace :: TRBrace :: r => Some (PyDict [], r)
      | TLBrace :: r => parse_members f r []
      | _ => None
      end
  end
with parse_elems (fuel : nat) (ts : list token) (acc : list pyval)
    : option (pyval * list token) :=
  match fuel with
  | O => None
  | S f =>
      match parse_value f ts with
      | Some (v, TComma :: r) => parse_elems f r (acc ++ [v])
      | Some (v, TRBrack :: r) => Some (PyList (acc ++ [v]), r)
      | _ => None
      end
  end
with parse_members (fuel : nat) (ts : list token)
    (acc : list (string * pyval)) : option (pyval * list token) :=
  match fuel with
  | O => None
  | S f =>
      match ts with
      | TStr k :: TColon :: r =>
          match parse_value f r with
          | Some (v, TComma :: r') => parse_members f r' (dict_set k v acc)
          | Some (v, TRBrace :: r') => Some (PyDict (dict_set k v acc), r')
          | _ => None
          end
      | _ => None
      end
  end.

Definition loads (text : string) : result pyval :=
  match lex (S (String.length text)) text with
  | Some ts =>
      match parse_value (2 * List.length ts + 2) ts with
      | Some (v, []) => Ok v
      | _ => Raise (JSONDecodeError "Expecting value")
      end
  | None => Raise (JSONDecodeError "Expecting value")
  end.

Fixpoint escape (s : string) : string :=
  match s with
  | EmptyString => EmptyString
  | String c r =>
      if decide (c = dquote) then String "\"%char (String c (escape r))
      else if decide (c = "\"%char) then String c (String c (escape r))
      else String c (escape r)
  end.

Definition quote (s : string) : string :=
  String dquote (escape s +:+ String dquote EmptyString).

Fixpoint join (sep : string) (parts : list string) : string :=
  match parts with
  | [] => EmptyString
  | [p] => p
  | p :: ps => p +:+ sep +:+ join sep ps
  end.

Fixpoint dumps (v : pyval) : string :=
  match v with
  | PyNone => "null"
  | PyBool true => "true"
  | PyBool false => "false"
  | PyInt n => pretty n
  | PyStr s => quote s
  | PyList l => "[" +:+ join ", " (map dumps l) +:+ "]"
  | PyDict d =>
      "{" +:+ join ", " (map (fun kv => quote (fst kv) +:+ ": " +:+ dumps (snd kv)) d)
          +:+ "}"
  end.

#[export] Instance mini_json : JsonLib :=
  {| json_load := loads; json_dump := dumps |}.

End MiniJson.


(* ===================================================================== *)
(** ** The state the two classes run in *)
(* ===================================================================== *)

(** The attributes of an [APILimiter] instance. *)
Record limiter : Type := mk_limiter {
  daily_user_limit : Z;
  daily_total_limit : Z;
  storage_path : string;
  usage_data : pyval
}.

(** [st.session_state]: an attribute that was never assigned is [None]. *)
Record session_state : Type := mk_session {
  user_api_calls : option Z;
  using_own_credentials : option (gmap string bool);
  user_credentials : option (gmap string (gmap string string))
}.

(** The files the process can see. [files] holds the text of each existing
    path ([os.path.exists] is membership); a path in [read_errors] or
    [write_errors] makes [open] in that mode raise the recorded exception
    (a directory, a permission, an undecodable byte). *)
Record filesystem : Type := mk_fs {
  files : gmap string string;
  read_errors : gmap string exn;
  write_errors : gmap string exn
}.

(** An f-string before it is rendered: its literal pieces and the values
    substituted into it. *)
Inductive fpart : Type :=
  | Lit (s : string)
  | Fmt (v : pyval)
  | FmtExn (e : exn).

(** What was handed to Streamlit, oldest first. [st_sidebar_progress c l]
    records the call [st.sidebar.progress(c / l)]. *)
Inductive ui_event : Type :=
  | st_warning (msg : list fpart)
  | st_error (msg : list fpart)
  | st_sidebar_write (msg : list fpart)
  | st_sidebar_progress (num den : Z).

Record world : Type := mk_world {
  self : limiter;
  session : session_state;
  fs : filesystem;
  environ : gmap string string;
  ui : list ui_event
}.

Definition set_self (l : limiter) (w : world) : world :=
  mk_world l (session w) (fs w) (environ w) (ui w).
Definition set_session (s : session_state) (w : world) : world :=
  mk_world (self w) s (fs w) (environ w) (ui w).
Definition set_fs (f : filesystem) (w : world) : world :=
  mk_world (self w) (session w) f (environ w) (ui w).
Definition emit (e : ui_event) (w : world) : world :=
  mk_world (self w) (session w) (fs w) (environ w) (ui w ++ [e]).

Definition set_usage_data (v : pyval) (w : world) : world :=
  set_self (mk_limiter (daily_user_limit (self w)) (daily_total_limit (self w))
                       (storage_path (self w)) v) w.
Definition set_user_api_calls (c : Z) (w : world) : world :=
  set_session (mk_session (Some c) (using_own_credentials (session w))
                          (user_credentials (session w))) w.
Definition set_using_own_credentials (m : gmap string bool) (w : world) : world :=
  set_session (mk_session (user_api_calls (session w)) (Some m)
                          (user_credentials (session w))) w.
Definition set_user_credentials (m : gmap string (gmap string string))
    (w : world) : world :=
  set_session (mk_session (user_api_calls (session w))
                          (using_own_credentials (session w)) (Some m)) w.

(** *** Computations that may raise *)

Definition M (A : Type) : Type := world -> result A * world.

Definition ret {A} (a : A) : M A := fun w => (Ok a, w).
Definition raise {A} (e : exn) : M A := fun w => (Raise e, w).
Definition bind {A B} (m : M A) (k : A -> M B) : M B :=
  fun w =>
    match m w with
    | (Ok a, w') => k a w'
    | (Raise e, w') => (Raise e, w')
    end.
Definition gets {A} (f : world -> A) : M A := fun w => (Ok (f w), w).
Definition modify (f : world -> world) : M unit := fun w => (Ok tt, f w).
Definition lift {A} (r : result A) : M A := fun w => (r, w).

(** [try: body except Exception as e: handler(e)]. *)
Definition try_except {A} (body : M A) (handler : exn -> M A) : M A :=
  fun w =>
    match body w with
    | (Ok a, w') => (Ok a, w')
    | (Raise e, w') => handler e w'
    end.

Notation "'let!' x ':=' m 'in' k" := (bind m (fun x => k))
  (at level 10, x name, m at level 100, k at level 200).
Notation "'do!' m 'in' k" := (bind m (fun _ => k))
  (at level 10, m at level 100, k at level 200).

(** *** The operating system *)

Definition os_path_exists (path : string) : M bool :=
  gets (fun w => bool_decide (is_Some (files (fs w) !! path))).

(** [with open(path, 'r') as f: f.read()]. *)
Definition read_text (path : string) : M string :=
  let! w := gets id in
  match read_errors (fs w) !! path with
  | Some e => raise e
  | None =>
      match files (fs w) !! path with
      | Some text => ret text
      | None => raise (OSError "No such file or directory")
      end
  end.

(** [with open(path, 'w') as f: f.write(text)]: the whole file is replaced. *)
Definition write_text (path text : string) : M unit :=
  let! w := gets id in
  match write_errors (fs w) !! path with
  | Some e => raise e
  | None =>
      modify (set_fs (mk_fs (<[path := text]> (files (fs w)))
                            (read_errors (fs w)) (write_errors (fs w))))
  end.

(** [os.getenv(name)] and [os.getenv(name, default)]. *)
Definition getenv (env : gmap string string) (name : string) : pyval :=
  match env !! name with
  | Some s => PyStr s
  | None => PyNone
  end.
Definition getenv_default (env : gmap string string) (name default : string)
    : pyval :=
  match env !! name with
  | Some s => PyStr s
  | None => PyStr default
  end.

(* ===================================================================== *)
(** ** [class APILimiter] *)
(* ===================================================================== *)

Module APILimiter.
Section Methods.
Context `{JsonLib}.

(** [{'date': today, 'total_calls': 0}], the record both fallbacks of
    [_load_usage_data] and the day rollover build. [today] stands for
    [datetime.now().strftime('%Y-%m-%d')] at the time of the call. *)
Definition fresh_record (today : string) : pyval :=
  PyDict [("date", PyStr today); ("total_calls", PyInt 0)].

(** [st.session_state.user_api_calls], read. *)
Definition get_user_api_calls : M Z :=
  let! s := gets session in
  match user_api_calls s with
  | Some c => ret c
  | None => raise (AttributeError "user_api_calls")
  end.

Definition _load_usage_data (today : string) : M pyval :=
  try_except
    (let! path := gets (fun w => storage_path (self w)) in
     let! present := os_path_exists path in
     if present : bool then
       let! text := read_text path in
       lift (json_load text)
     else ret (fresh_record today))
    (fun e =>
       do! modify (emit (st_error [Lit "Error loading API usage data: "; FmtExn e])) in
       ret (fresh_record today)).

Definition _save_usage_data : M unit :=
  try_except
    (let! l := gets self in
     write_text (storage_path l) (json_dump (usage_data l)))
    (fun e =>
       modify (emit (st_error [Lit "Error saving API usage data: "; FmtExn e]))).

Definition __init__ (user_limit total_limit : Z) (path today : string)
    : M unit :=
  do! modify (fun w =>
        set_self (mk_limiter user_limit total_limit path (usage_data (self w))) w) in
  let! data := _load_usage_data today in
  do! modify (set_usage_data data) in
  let! s := gets session in
  match user_api_calls s with
  | None => modify (set_user_api_calls 0)
  | Some _ => ret tt
  end.

Definition _reset_if_new_day (today : string) : M unit :=
  let! data := gets (fun w => usage_data (self w)) in
  let! stored := lift (getitem data "date") in
  if py_ne_str stored today then
    do! modify (set_usage_data (fresh_record today)) in
    do! modify (set_user_api_calls 0) in
    _save_usage_data
  else ret tt.

Definition user_quota_message (limit : Z) : list fpart :=
  [Lit "You've reached your daily limit of "; Fmt (PyInt limit);
   Lit " API calls. Please try again tomorrow."].

Definition total_quota_message (limit : Z) : list fpart :=
  [Lit "The total daily limit of "; Fmt (PyInt limit);
   Lit " API calls has been reached. Please try again tomorrow."].

Definition check_limits (today : string) : M bool :=
  do! _reset_if_new_day today in
  let! calls := get_user_api_calls in
  let! l := gets self in
  if daily_user_limit l <=? calls then
    do! modify (emit (st_warning (user_quota_message (daily_user_limit l)))) in
    ret false
  else
    let! total := lift (getitem (usage_data l) "total_calls") in
    let! over := lift (py_ge_int total (daily_total_limit l)) in
    if over : bool then
      do! modify (emit (st_error (total_quota_message (daily_total_limit l)))) in
      ret false
    else ret true.

Definition increment_usage : M unit :=
  let! calls := get_user_api_calls in
  do! modify (set_user_api_calls (calls + 1)) in
  let! data := gets (fun w => usage_data (self w)) in
  let! total := lift (getitem data "total_calls") in
  let! total' := lift (py_add_one total) in
  let! data' := lift (setitem data "total_calls" total') in
  do! modify (set_usage_data data') in
  _save_usage_data.

(** The ratio handed to [st.sidebar.progress] is recorded as the pair it
    is computed from; the division raises when the limit is zero. *)
Definition display_usage_stats (today : string) : M unit :=
  do! _reset_if_new_day today in
  do! modify (emit (st_sidebar_write [Lit "### API Usage Statistics"])) in
  let! calls := get_user_api_calls in
  let! l := gets self in
  do! modify (emit (st_sidebar_write
        [Lit "Your usage today: "; Fmt (PyInt calls); Lit "/";
         Fmt (PyInt (daily_user_limit l))])) in
  let! total := lift (getitem (usage_data l) "total_calls") in
  do! modify (emit (st_sidebar_write
        [Lit "Total usage today: "; Fmt total; Lit "/";
         Fmt (PyInt (daily_total_limit l))])) in
  let! calls' := get_user_api_calls in
  if daily_user_limit l =? 0 then raise ZeroDivisionError
  else modify (emit (st_sidebar_progress calls' (daily_user_limit l))).

End Methods.
End APILimiter.

(* ===================================================================== *)
(** ** [class APICredentialsManager] *)
(* ===================================================================== *)

(** The two session dicts hold what [credentials_ui] stored from its
    widgets: a flag per service, and the typed fields per service. The form
    itself is Streamlit's and is left out. *)
Module APICredentialsManager.

Definition no_own_credentials : gmap string bool :=
  <["aws" := false]> (<["openai" := false]> ∅).
Definition no_user_credentials : gmap string (gmap string string) :=
  <["aws" := ∅]> (<["openai" := ∅]> ∅).

Definition __init__ : M unit :=
  let! s := gets session in
  do! (match using_own_credentials s with
       | None => modify (set_using_own_credentials no_own_credentials)
       | Some _ => ret tt
       end) in
  let! s' := gets session in
  match user_credentials s' with
  | None => modify (set_user_credentials no_user_credentials)
  | Some _ => ret tt
  end.

Definition clear_credentials : M unit :=
  do! modify (set_using_own_credentials no_own_credentials) in
  modify (set_user_credentials no_user_credentials).

(** [st.session_state.using_own_credentials] and
    [st.session_state.user_credentials], read. *)
Definition get_using_own_credentials : M (gmap string bool) :=
  let! s := gets session in
  match using_own_credentials s with
  | Some m => ret m
  | None => raise (AttributeError "using_own_credentials")
  end.

Definition get_user_credentials : M (gmap string (gmap string string)) :=
  let! s := gets session in
  match user_credentials s with
  | Some m => ret m
  | None => raise (AttributeError "user_credentials")
  end.

(** [d[key]] on a session dict. *)
Definition index {V} (d : gmap string V) (key : string) : M V :=
  match d !! key with
  | Some v => ret v
  | None => raise (KeyError key)
  end.

Definition clear_service_credentials (service : string) : M unit :=
  let! own := get_using_own_credentials in
  do! modify (set_using_own_credentials (<[service := false]> own)) in
  let! creds := get_user_credentials in
  modify (set_user_credentials (<[service := ∅]> creds)).

(** The operator's defaults, from the environment; [{}] for a service that
    is neither ['aws'] nor ['openai']. *)
Definition default_credentials (env : gmap string string) (service : string)
    : pyval :=
  if decide (service = "aws") then
    PyDict [("aws_access_key_id", getenv env "AWS_ACCESS_KEY_ID");
            ("aws_secret_access_key", getenv env "AWS_SECRET_ACCESS_KEY");
            ("region_name", getenv_default env "AWS_REGION" "eu-west-1")]
  else if decide (service = "openai") then
    PyDict [("api_key", getenv env "OPENAI_API_KEY")]
  else PyDict [].

Definition get_credentials (service : string) : M pyval :=
  let! own := get_using_own_credentials in
  let fallback := (let! env := gets environ in
                   ret (default_credentials env service)) in
  if default false (own !! service) then
    if decide (service = "aws") then
      let! creds := get_user_credentials in
      let! aws := index creds "aws" in
      let! access_key := index aws "access_key_id" in
      let! secret_key := index aws "secret_key" in
      let! region := index aws "region" in
      do! clear_service_credentials "aws" in
      ret (PyDict [("aws_access_key_id", PyStr access_key);
                   ("aws_secret_access_key", PyStr secret_key);
                   ("region_name", PyStr region)])
    else if decide (service = "openai") then
      let! creds := get_user_credentials in
      let! openai := index creds "openai" in
      let! api_key := index openai "api_key" in
      do! clear_service_credentials "openai" in
      ret (PyDict [("api_key", PyStr api_key)])
    else fallback
  else fallback.

Definition is_using_own_credentials (service : string) : M bool :=
  let! own := get_using_own_credentials in
  ret (default false (own !! service)).

(** What the widgets of [credentials_ui] return in one run of the script:
    the button, the two checkboxes, and the text inputs (a text input is
    only consulted when its checkbox is ticked). *)
Record widgets : Type := mk_widgets {
  clear_clicked : bool;
  use_own_openai : bool;
  openai_key : string;
  use_own_aws : bool;
  aws_access_key : string;
  aws_secret_key : string;
  aws_region : string
}.

(** [st.rerun()] ends the run of the script instead of returning. *)
Inductive script_flow : Type := Continues | Reruns.

Definition nonempty (s : string) : bool := negb (bool_decide (s = EmptyString)).

(** [st.session_state.using_own_credentials[service] = flag]. *)
Definition set_flag (service : string) (flag : bool) : M unit :=
  let! own := get_using_own_credentials in
  modify (set_using_own_credentials (<[service := flag]> own)).

(** The OpenAI block of the form. The [value=] arguments of the widgets are
    evaluated, and can raise, before the widget is shown. *)
Definition openai_settings (inp : widgets) : M unit :=
  do! modify (emit (st_sidebar_write [Lit "#### OpenAI Settings"])) in
  let! own := get_using_own_credentials in
  let! shown := index own "openai" in
  if use_own_openai inp then
    let! creds := get_user_credentials in
    let! stored := index creds "openai" in
    if nonempty (openai_key inp) then
      let! creds1 := get_user_credentials in
      let! stored1 := index creds1 "openai" in
      do! modify (set_user_credentials
            (<["openai" := <["api_key" := openai_key inp]> stored1]> creds1)) in
      set_flag "openai" true
    else set_flag "openai" false
  else ret tt.

(** The AWS block of the form. *)
Definition aws_settings (inp : widgets) : M unit :=
  do! modify (emit (st_sidebar_write [Lit "#### AWS Settings"])) in
  let! own := get_using_own_credentials in
  let! shown := index own "aws" in
  if use_own_aws inp then
    let! creds := get_user_credentials in
    let! stored := index creds "aws" in
    if nonempty (aws_access_key inp) && nonempty (aws_secret_key inp) then
      let! creds1 := get_user_credentials in
      let! stored1 := index creds1 "aws" in
      do! modify (set_user_credentials
            (<["aws" := <["access_key_id" := aws_access_key inp]>
                        (<["secret_key" := aws_secret_key inp]>
                        (<["region" := aws_region inp]> stored1))]> creds1)) in
      set_flag "aws" true
    else set_flag "aws" false
  else ret tt.

(** Only [st.write] is logged; the widgets appear as the values they return. *)
Definition credentials_ui (inp : widgets) : M script_flow :=
  do! modify (emit (st_sidebar_write [Lit "### API Credentials"])) in
  if clear_clicked inp then
    do! clear_credentials in
    ret Reruns
  else
    do! openai_settings inp in
    do! aws_settings inp in
    ret Continues.

End APICredentialsManager.

(* ===================================================================== *)
(** ** [utils.py] *)
(* ===================================================================== *)

(** [check_credentials] and its caller [load_credentials]. [setup_apis]
    only builds a boto3 client and is left out. *)
Module Utils.

Definition required_credentials : list string :=
  ["OPENAI_API_KEY"; "AWS_ACCESS_KEY_ID"; "AWS_SECRET_ACCESS_KEY";
   "AWS_REGION"; "HUGGINGFACE_TOKEN"].

(** [sep.join(parts)]. *)
Fixpoint str_join (sep : string) (parts : list string) : string :=
  match parts with
  | [] => EmptyString
  | [p] => p
  | p :: ps => p +:+ sep +:+ str_join sep ps
  end.

(** [[cred for cred in required_credentials if not os.getenv(cred)]]. *)
Definition missing_credentials (env : gmap string string) : list string :=
  List.filter (fun cred => negb (truthy (getenv env cred))) required_credentials.

Definition check_credentials : M bool :=
  let! env := gets environ in
  let missing := missing_credentials env in
  match missing with
  | [] => ret true
  | _ :: _ =>
      do! modify (emit (st_error
            [Lit "Missing credentials: "; Fmt (PyStr (str_join ", " missing))])) in
      ret false
  end.

(** *** [utils.load_credentials] *)

(** The libraries [load_credentials] calls: python-dotenv's
    [load_dotenv(path)], and Streamlit's secrets, as the truth value of
    [st.secrets] and as [st.secrets[key]]. Each may raise and may change
    the process as it likes; the function is verified against any of them. *)
Class Platform : Type := {
  load_dotenv : string -> M unit;
  secrets_truthy : M bool;
  secrets_getitem : string -> M pyval
}.

(** What can leave [load_credentials] other than a return: an exception
    that [except Exception] catches (those of [exn], and the [ValueError]
    of [os.environ]), or the [StopException] of [st.stop()], which derives
    from [BaseException] and is not caught. *)
Inductive raised : Type :=
  | Exception (e : exn)
  | ValueError (msg : string)
  | StopException.

Inductive outcome (A : Type) : Type :=
  | Returns (a : A)
  | Raises (r : raised).
Arguments Returns {A} a.
Arguments Raises {A} r.

(** The process as [load_credentials] sees it: the world of the two
    classes, whether ['credentials_loaded'] is a key of the session state,
    and the lines printed to standard output, oldest first. *)
Record process : Type := mk_process {
  proc : world;
  credentials_loaded : bool;
  stdout : list (list fpart)
}.

Definition P (A : Type) : Type := process -> outcome A * process.

Definition p_ret {A} (a : A) : P A := fun p => (Returns a, p).
Definition p_raise {A} (r : raised) : P A := fun p => (Raises r, p).
Definition p_bind {A B} (m : P A) (k : A -> P B) : P B :=
  fun p =>
    match m p with
    | (Returns a, p') => k a p'
    | (Raises r, p') => (Raises r, p')
    end.

(** A computation of the two classes, or of a library, run in the process. *)
Definition in_world {A} (m : M A) : P A :=
  fun p =>
    match m (proc p) with
    | (Ok a, w') => (Returns a, mk_process w' (credentials_loaded p) (stdout p))
    | (Raise e, w') =>
        (Raises (Exception e), mk_process w' (credentials_loaded p) (stdout p))
    end.

Definition print (line : list fpart) : P unit :=
  fun p =>
    (Returns tt, mk_process (proc p) (credentials_loaded p) (stdout p ++ [line])).

(** [try: body except Exception as e: handler(e)]. *)
Definition p_try_except {A} (body : P A) (handler : raised -> P A) : P A :=
  fun p =>
    match body p with
    | (Returns a, p') => (Returns a, p')
    | (Raises StopException, p') => (Raises StopException, p')
    | (Raises r, p') => handler r p'
    end.

Notation "'let!!' x ':=' m 'in' k" := (p_bind m (fun x => k))
  (at level 10, x name, m at level 100, k at level 200).
Notation "'do!!' m 'in' k" := (p_bind m (fun _ => k))
  (at level 10, m at level 100, k at level 200).

(** [str(e)] inside an f-string. *)
Definition fmt_raised (r : raised) : fpart :=
  match r with
  | Exception e => FmtExn e
  | ValueError msg => Fmt (PyStr msg)
  | StopException => Lit EmptyString
  end.

Fixpoint has_nul (s : string) : bool :=
  match s with
  | EmptyString => false
  | String c r => bool_decide (c = "000"%char) || has_nul r
  end.

Definition set_environ (env : gmap string string) (w : world) : world :=
  mk_world (self w) (session w) (fs w) env (ui w).

(** [os.environ[name] = value]: the value must be a [str], and [putenv]
    refuses one with a NUL character in it. *)
Definition environ_setitem (name : string) (value : pyval) : P unit :=
  match value with
  | PyStr s =>
      if has_nul s then p_raise (ValueError "embedded null byte")
      else in_world (modify (fun w => set_environ (<[name := s]> (environ w)) w))
  | _ => p_raise (Exception (TypeError ("str expected, not " +:+ type_name value)))
  end.

(** [os.path.join(a, b)] for a relative [b], with [/] as the separator. *)
Fixpoint ends_with_slash (a : string) : bool :=
  match a with
  | EmptyString => false
  | String c EmptyString => bool_decide (c = "/"%char)
  | String _ r => ends_with_slash r
  end.

Definition path_join (a b : string) : string :=
  match a with
  | EmptyString => b
  | _ => if ends_with_slash a then a +:+ b else a +:+ "/" +:+ b
  end.

(** The four places a [.env] file is looked for; [here] is
    [os.path.dirname(__file__)]. *)
Definition possible_paths (here : string) : list string :=
  [".env"; "../.env"; path_join here ".env"; path_join here "../.env"].

(** The [for path in possible_paths] loop: the first path that exists is
    loaded and reported, and ends the loop; the answer is [env_loaded]. *)
Fixpoint try_paths `{Platform} (paths : list string) : P bool :=
  match paths with
  | [] => p_ret false
  | path :: rest =>
      let!! present := in_world (os_path_exists path) in
      if present : bool then
        do!! in_world (load_dotenv path) in
        do!! print [Lit "Loaded .env from: "; Fmt (PyStr path)] in
        p_ret true
      else try_paths rest
  end.

(** The variables copied from the secrets, in the order of the five
    assignments. *)
Definition secret_names : list string :=
  ["OPENAI_API_KEY"; "AWS_ACCESS_KEY_ID"; "AWS_SECRET_ACCESS_KEY";
   "AWS_REGION"; "HUGGINGFACE_TOKEN"].

(** [os.environ[name] = st.secrets[name]] for each name in turn. *)
Fixpoint copy_secrets `{Platform} (names : list string) : P unit :=
  match names with
  | [] => p_ret tt
  | name :: rest =>
      let!! value := in_world (secrets_getitem name) in
      do!! environ_setitem name value in
      copy_secrets rest
  end.

Definition load_credentials `{Platform} (here : string) : P unit :=
  fun p =>
    if credentials_loaded p then (Returns tt, p)
    else
      (let!! env_loaded := try_paths (possible_paths here) in
       if env_loaded : bool then p_ret tt
       else
         do!! print [Lit "No .env file found in any expected location"] in
         do!! p_try_except
                (let!! some := in_world secrets_truthy in
                 if some : bool then copy_secrets secret_names else p_ret tt)
                (fun r => in_world (modify (emit (st_error
                            [Lit "Couldn't load Streamlit secrets: "; fmt_raised r])))) in
         let!! ok := in_world check_credentials in
         if ok : bool then p_ret tt else p_raise StopException) p.

(** The environment after the assignments [os.environ[name] = value name]
    for the names of a list, in order. *)
Definition with_secrets (value : string -> string) (names : list string)
    (env : gmap string string) : gmap string string :=
  fold_left (fun env name => <[name := value name]> env) names env.

(** A stand-in for the two libraries: [load_dotenv] sets the variables of
    [dotenv] that the environment does not have yet, and the secrets are
    the entries of [secrets], or no secrets file at all. *)
Definition sample_platform (dotenv : gmap string string)
    (secrets : option (gmap string pyval)) : Platform :=
  {| load_dotenv := fun _ =>
       modify (fun w => set_environ (environ w ∪ dotenv) w);
     secrets_truthy :=
       match secrets with
       | Some m => ret (negb (bool_decide (m = ∅)))
       | None => raise (OSError "No secrets files found")
       end;
     secrets_getitem := fun name =>
       match secrets with
       | Some m =>
           match m !! name with
           | Some v => ret v
           | None => raise (KeyError name)
           end
       | None => raise (OSError "No secrets files found")
       end |}.

End Utils.

(* ===================================================================== *)
(** ** Callers and observations used in the statements *)
(* ===================================================================== *)

(** [UsageRecord.total_calls] and [UsageRecord.date] of the in-memory
    record, when it has them. *)
Definition total_calls (w : world) : option Z :=
  match getitem (usage_data (self w)) "total_calls" with
  | Ok t => as_int t
  | Raise _ => None
  end.

Definition record_date (w : world) : option pyval :=
  match getitem (usage_data (self w)) "date" with
  | Ok d => Some d
  | Raise _ => None
  end.

(** The text stored at the limiter's [storage_path]. *)
Definition persisted (w : world) : option string :=
  files (fs w) !! storage_path (self w).

Section Callers.
Context `{JsonLib}.

(** [n] calls of [increment_usage] in a row, stopping at an exception. *)
Fixpoint record_calls (n : nat) : M unit :=
  match n with
  | O => ret tt
  | S k => do! APILimiter.increment_usage in record_calls k
  end.

(** The three public operations of the limiter, and the state one of them
    leaves behind when run on day [today], whether it returns or raises. *)
Inductive call : Type := Check | Stats | Record.

Definition after_call (today : string) (c : call) (w : world) : world :=
  match c with
  | Check => snd (APILimiter.check_limits today w)
  | Stats => snd (APILimiter.display_usage_stats today w)
  | Record => snd (APILimiter.increment_usage w)
  end.

(** The states of day [today] from its first rollover on: the state a
    successful rollover leaves, and every state an operation of that day
    leads to from there. *)
Inductive rolled_over (today : string) : world -> Prop :=
  | rolled_first w w1 :
      APILimiter._reset_if_new_day today w = (Ok tt, w1) ->
      rolled_over today w1
  | rolled_step w c :
      rolled_over today w ->
      rolled_over today (after_call today c w).

(** The walk-through of two client sessions sharing one usage file: the
    first checks and records until it is refused, the second then opens
    with no session state of its own, builds its limiter from the file
    and does the same. The answers of the five checks, in order. *)
Definition two_sessions (user total : Z) (path today : string)
    : M (list bool) :=
  do! APILimiter.__init__ user total path today in
  let! a1 := APILimiter.check_limits today in
  do! APILimiter.increment_usage in
  let! a2 := APILimiter.check_limits today in
  do! APILimiter.increment_usage in
  let! a3 := APILimiter.check_limits today in
  do! modify (set_session (mk_session None None None)) in
  do! APILimiter.__init__ user total path today in
  let! b1 := APILimiter.check_limits today in
  do! APILimiter.increment_usage in
  let! b2 := APILimiter.check_limits today in
  ret [a1; a2; a3; b1; b2].

(** What [_save_usage_data] leaves behind: the serialized record at the
    storage path, or, when the file cannot be opened for writing, the old
    files and one diagnostic. *)
Definition saved (w : world) : world :=
  match write_errors (fs w) !! storage_path (self w) with
  | None =>
      set_fs (mk_fs (<[storage_path (self w) := json_dump (usage_data (self w))]>
                       (files (fs w)))
                    (read_errors (fs w)) (write_errors (fs w))) w
  | Some e => emit (st_error [Lit "Error saving API usage data: "; FmtExn e]) w
  end.

(** The state a rollover that found a stale date builds before it saves. *)
Definition reset_for (today : string) (w : world) : world :=
  set_user_api_calls 0 (set_usage_data (APILimiter.fresh_record today) w).

End Callers.

Section Protocol.
Context `{JsonLib}.

(** The contract of a caller: check, and record only when allowed. The
    answer of the check is returned. *)
Definition checked_call (today : string) : M bool :=
  let! allowed := APILimiter.check_limits today in
  if allowed : bool then
    do! APILimiter.increment_usage in
    ret true
  else ret false.

(** [k] checked calls in a row on day [today]; the number that went through. *)
Fixpoint checked_calls (today : string) (k : nat) : M Z :=
  match k with
  | O => ret 0
  | S k' =>
      let! allowed := checked_call today in
      let! more := checked_calls today k' in
      ret ((if allowed : bool then 1 else 0) + more)
  end.

(** The state after a list of operations of day [today], oldest first. *)
Fixpoint after_calls (today : string) (cs : list call) (w : world) : world :=
  match cs with
  | [] => w
  | c :: cs' => after_calls today cs' (after_call today c w)
  end.

End Protocol.

(** The same process with the storage path made unwritable. *)
Definition write_protected (e : exn) (w : world) : world :=
  set_fs (mk_fs (files (fs w)) (read_errors (fs w))
                (<[storage_path (self w) := e]> (write_errors (fs w)))) w.

(** The credentials the caller typed for [service], in the shape
    [get_credentials] hands them out: present when every field that service
    needs has been typed. *)
Definition supplied_credentials (service : string) (mine : gmap string string)
    : option pyval :=
  if decide (service = "aws") then
    match mine !! "access_key_id", mine !! "secret_key", mine !! "region" with
    | Some access_key, Some secret_key, Some region =>
        Some (PyDict [("aws_access_key_id", PyStr access_key);
                      ("aws_secret_access_key", PyStr secret_key);
                      ("region_name", PyStr region)])
    | _, _, _ => None
    end
  else if decide (service = "openai") then
    match mine !! "api_key" with
    | Some api_key => Some (PyDict [("api_key", PyStr api_key)])
    | None => None
    end
  else None.

(** *** Sample states *)

Definition usage_path : string := "api_usage.json".

(** A process that has built no limiter yet, in a session that has assigned
    nothing, with the given file system and environment. *)
Definition boot (f : filesystem) (env : gmap string string) : world :=
  mk_world (mk_limiter 0 0 EmptyString PyNone) (mk_session None None None) f env [].

Definition no_files : filesystem := mk_fs ∅ ∅ ∅.
Definition one_file (text : string) : filesystem :=
  mk_fs {[usage_path := text]} ∅ ∅.
Definition locked_file (text : string) : filesystem :=
  mk_fs {[usage_path := text]}
        {[usage_path := OSError "[Errno 13] Permission denied: 'api_usage.json'"]} ∅.

(** The text a limiter left on an earlier day, after five calls. *)
Definition stale_text : string :=
  MiniJson.dumps (PyDict [("date", PyStr "2024-01-01"); ("total_calls", PyInt 5)]).

(** Well-formed JSON of the wrong shape: an object without a date, and an
    empty list. *)
Definition foo_text : string := MiniJson.dumps (PyDict [("foo", PyInt 1)]).
Definition list_text : string := "[]".

(** A limiter with limits [(user, total)] holding the well-formed record
    [{date, calls}], in a session that made [mine] calls. *)
Definition running (user total : Z) (date : string) (calls mine : Z) : world :=
  mk_world (mk_limiter user total usage_path
              (PyDict [("date", PyStr date); ("total_calls", PyInt calls)]))
           (mk_session (Some mine) None None) no_files ∅ [].

(** The day's first rollover on a stale record, then two recorded calls. *)
Definition advanced : world :=
  let json := MiniJson.mini_json in
  after_call "2024-01-02" Record
    (after_call "2024-01-02" Record
       (snd (APILimiter._reset_if_new_day "2024-01-02"
               (running 2 3 "2024-01-01" 7 9)))).

(** A session in which the user typed credentials for both services. *)
Definition typed_credentials : world :=
  mk_world (mk_limiter 10 100 usage_path PyNone)
    (mk_session (Some 0)
       (Some (<["aws" := true]> (<["openai" := true]> ∅)))
       (Some (<["aws" := <["access_key_id" := "AKIAUSER"]>
                          (<["secret_key" := "usersecret"]>
                          (<["region" := "us-east-1"]> ∅))]>
             (<["openai" := <["api_key" := "sk-user"]> ∅]> ∅))))
    no_files
    (<["OPENAI_API_KEY" := "sk-operator"]>
       (<["AWS_ACCESS_KEY_ID" := "AKIAOPERATOR"]>
       (<["AWS_SECRET_ACCESS_KEY" := "operatorsecret"]> ∅)))
    [].

(** A session whose credentials manager was built and nothing typed. *)
Definition signed_out : world :=
  mk_world (mk_limiter 10 100 usage_path PyNone)
    (mk_session (Some 4)
       (Some APICredentialsManager.no_own_credentials)
       (Some APICredentialsManager.no_user_credentials))
    no_files
    (<["OPENAI_API_KEY" := "sk-operator"]> ∅)
    [].

(** A session in which AWS is flagged with only its access key stored. *)
Definition half_typed : world :=
  mk_world (mk_limiter 10 100 usage_path PyNone)
    (mk_session (Some 0)
       (Some (<["aws" := true]> (<["openai" := false]> ∅)))
       (Some (<["aws" := <["access_key_id" := "AKIAUSER"]> ∅]>
             (<["openai" := ∅]> ∅))))
    no_files ∅ [].

(** Runs of the credentials form: a key typed for OpenAI, keys typed for
    AWS with the region left empty, the clear button pressed, nothing
    ticked, and AWS ticked without its secret key. *)
Definition typing_openai : APICredentialsManager.widgets :=
  APICredentialsManager.mk_widgets false true "sk-typed" false
    EmptyString EmptyString EmptyString.
Definition typing_aws : APICredentialsManager.widgets :=
  APICredentialsManager.mk_widgets false false EmptyString true
    "AKIATYPED" "typedsecret" EmptyString.
Definition pressing_clear : APICredentialsManager.widgets :=
  APICredentialsManager.mk_widgets true true "sk-typed" true
    "AKIATYPED" "typedsecret" "eu-west-1".
Definition nothing_ticked : APICredentialsManager.widgets :=
  APICredentialsManager.mk_widgets false false "sk-typed" false
    "AKIATYPED" "typedsecret" "eu-west-1".
Definition aws_without_secret : APICredentialsManager.widgets :=
  APICredentialsManager.mk_widgets false false EmptyString true
    "AKIATYPED" EmptyString "eu-west-1".

(** A development machine: a [.env] file one level up that sets one
    variable, no secrets file. *)
Definition local_platform : Utils.Platform :=
  Utils.sample_platform (<["OPENAI_API_KEY" := "sk-local"]> ∅) None.
Definition local_process : Utils.process :=
  Utils.mk_process
    (boot (mk_fs {["../.env" := "OPENAI_API_KEY=sk-local"]} ∅ ∅) ∅) false [].

(** A deployment: no [.env] file anywhere; the secrets hold all five
    variables, or only the first two. *)
Definition cloud_values (name : string) : string :=
  if decide (name = "OPENAI_API_KEY") then "sk-cloud"
  else if decide (name = "AWS_ACCESS_KEY_ID") then "AKIACLOUD"
  else if decide (name = "AWS_SECRET_ACCESS_KEY") then "cloudsecret"
  else if decide (name = "AWS_REGION") then "eu-west-1"
  else if decide (name = "HUGGINGFACE_TOKEN") then "hf-cloud"
  else EmptyString.
Definition cloud_secrets (names : list string) : gmap string pyval :=
  list_to_map (map (fun name => (name, PyStr (cloud_values name))) names).
Definition cloud_platform : Utils.Platform :=
  Utils.sample_platform ∅ (Some (cloud_secrets Utils.secret_names)).
Definition half_cloud_platform : Utils.Platform :=
  Utils.sample_platform ∅
    (Some (cloud_secrets ["OPENAI_API_KEY"; "AWS_ACCESS_KEY_ID"])).
Definition bare_platform : Utils.Platform := Utils.sample_platform ∅ None.

(** The same deployment with the Hugging Face token left empty. *)
Definition tokenless_values (name : string) : string :=
  if decide (name = "HUGGINGFACE_TOKEN") then EmptyString else cloud_values name.
Definition tokenless_platform : Utils.Platform :=
  Utils.sample_platform ∅
    (Some (list_to_map
             (map (fun name => (name, PyStr (tokenless_values name)))
                  Utils.secret_names))).
Definition cloud_process : Utils.process :=
  Utils.mk_process (boot no_files ∅) false [].

(* ===================================================================== *)
(** ** Properties of the limiter *)
(* ===================================================================== *)

Ltac unfold_monad :=
  unfold bind, ret, raise, gets, modify, lift, try_except in *.

Lemma py_ne_str_true (v : pyval) (s : string) :
  py_ne_str v s = true <-> v <> PyStr s.
Proof.
  destruct v; simpl; try (split; [discriminate | reflexivity]).
  rewrite negb_true_iff, bool_decide_eq_false. split; congruence.
Qed.

Lemma py_ne_str_false (v : pyval) (s : string) :
  py_ne_str v s = false <-> v = PyStr s.
Proof.
  destruct v; simpl; try (split; discriminate).
  rewrite negb_false_iff, bool_decide_eq_true. split; congruence.
Qed.

Lemma dict_get_set_eq (k : string) (v : pyval) (d : list (string * pyval)) :
  dict_get k (dict_set k v d) = Some v.
Proof.
  induction d as [|[k' v'] d IH]; simpl.
  - rewrite decide_True by reflexivity. reflexivity.
  - destruct (decide (k' = k)) as [->|Hne]; simpl.
    + rewrite decide_True by reflexivity. reflexivity.
    + rewrite decide_False by assumption. exact IH.
Qed.

Lemma dict_get_set_ne (k k0 : string) (v : pyval) (d : list (string * pyval)) :
  k0 <> k -> dict_get k0 (dict_set k v d) = dict_get k0 d.
Proof.
  intros Hne. induction d as [|[k' v'] d IH]; simpl.
  - rewrite decide_False by congruence. reflexivity.
  - destruct (decide (k' = k)) as [->|Hk]; simpl.
    + rewrite !decide_False by congruence. reflexivity.
    + destruct (decide (k' = k0)); [reflexivity | exact IH].
Qed.

Section LimiterFacts.
Context `{JsonLib}.
Import APILimiter.

Lemma save_usage_data_saved (w : world) :
  _save_usage_data w = (Ok tt, saved w).
Proof.
  unfold _save_usage_data, saved, write_text. unfold_monad. simpl.
  destruct (write_errors (fs w) !! storage_path (self w)); reflexivity.
Qed.

Lemma saved_self (w : world) : self (saved w) = self w.
Proof. unfold saved. destruct (write_errors _ !! _); reflexivity. Qed.

Lemma saved_session (w : world) : session (saved w) = session w.
Proof. unfold saved. destruct (write_errors _ !! _); reflexivity. Qed.

Lemma saved_persisted (w : world) :
  write_errors (fs w) !! storage_path (self w) = None ->
  persisted (saved w) = Some (json_dump (usage_data (self w))).
Proof.
  intros Hw. unfold persisted, saved. rewrite Hw. simpl.
  apply lookup_insert_eq.
Qed.

Lemma saved_not_persisted (w : world) (e : exn) :
  write_errors (fs w) !! storage_path (self w) = Some e ->
  fs (saved w) = fs w.
Proof. intros Hw. unfold saved. rewrite Hw. reflexivity. Qed.

Lemma reset_if_new_day_cases (today : string) (w : world) :
  _reset_if_new_day today w =
    match getitem (usage_data (self w)) "date" with
    | Ok stored =>
        if py_ne_str stored today then (Ok tt, saved (reset_for today w))
        else (Ok tt, w)
    | Raise e => (Raise e, w)
    end.
Proof.
  unfold _reset_if_new_day. unfold_monad. simpl.
  destruct (getitem (usage_data (self w)) "date") as [stored|e]; [|reflexivity].
  destruct (py_ne_str stored today); [|reflexivity].
  simpl. apply save_usage_data_saved.
Qed.

(** C4. Day rollover: when the stored date differs from today's, the
    record becomes [{date: today, total_calls: 0}], the session counter
    becomes zero and the new record is saved (written to the storage path
    whenever the file can be opened for writing); when the stored date is
    today's, nothing changes. *)
Theorem reset_if_new_day_rollover (today : string) (w : world) (stored : pyval) :
  getitem (usage_data (self w)) "date" = Ok stored ->
  (stored <> PyStr today ->
     exists w',
       _reset_if_new_day today w = (Ok tt, w')
       /\ w' = snd (_save_usage_data (reset_for today w))
       /\ usage_data (self w')
          = PyDict [("date", PyStr today); ("total_calls", PyInt 0)]
       /\ record_date w' = Some (PyStr today)
       /\ total_calls w' = Some 0
       /\ user_api_calls (session w') = Some 0
       /\ daily_user_limit (self w') = daily_user_limit (self w)
       /\ daily_total_limit (self w') = daily_total_limit (self w)
       /\ storage_path (self w') = storage_path (self w)
       /\ (write_errors (fs w) !! storage_path (self w) = None ->
           persisted w'
           = Some (json_dump
                     (PyDict [("date", PyStr today); ("total_calls", PyInt 0)]))))
  /\ (stored = PyStr today -> _reset_if_new_day today w = (Ok tt, w)).
Proof.
  intros Hdate. rewrite reset_if_new_day_cases, Hdate. split.
  - intros Hne. apply py_ne_str_true in Hne. rewrite Hne.
    exists (saved (reset_for today w)). split; [reflexivity|].
    unfold record_date, total_calls.
    rewrite save_usage_data_saved, saved_self, saved_session. simpl.
    repeat split. intros Hw. rewrite saved_persisted by exact Hw. reflexivity.
  - intros Heq. apply py_ne_str_false in Heq. rewrite Heq. reflexivity.
Qed.

Lemma check_limits_after_rollover (today : string) (w w1 : world) (c : Z) :
  _reset_if_new_day today w = (Ok tt, w1) ->
  user_api_calls (session w1) = Some c ->
  check_limits today w =
    if daily_user_limit (self w1) <=? c then
      (Ok false, emit (st_warning (user_quota_message (daily_user_limit (self w1)))) w1)
    else
      match getitem (usage_data (self w1)) "total_calls" with
      | Ok total =>
          match py_ge_int total (daily_total_limit (self w1)) with
          | Ok true =>
              (Ok false,
               emit (st_error (total_quota_message (daily_total_limit (self w1)))) w1)
          | Ok false => (Ok true, w1)
          | Raise e => (Raise e, w1)
          end
      | Raise e => (Raise e, w1)
      end.
Proof.
  intros Hroll Hcalls. unfold check_limits, get_user_api_calls. unfold_monad.
  rewrite Hroll. simpl. rewrite Hcalls. simpl.
  destruct (daily_user_limit (self w1) <=? c); [reflexivity|].
  destruct (getitem (usage_data (self w1)) "total_calls") as [total|e];
    [|reflexivity].
  destruct (py_ge_int total (daily_total_limit (self w1))) as [[|]|e];
    reflexivity.
Qed.

Lemma total_calls_ge (w : world) (n limit : Z) :
  total_calls w = Some n ->
  exists total,
    getitem (usage_data (self w)) "total_calls" = Ok total
    /\ py_ge_int total limit = Ok (limit <=? n).
Proof.
  unfold total_calls, py_ge_int.
  destruct (getitem (usage_data (self w)) "total_calls") as [total|e];
    [|discriminate].
  intros Hn. exists total. rewrite Hn. split; reflexivity.
Qed.


(** C8. A [check_limits] that answers not-allowed has done nothing beyond
    its opening rollover except post the advisory message: the limiter's
    record, the session state and the files are those the rollover left. *)
Theorem check_limits_denied_frame (today : string) (w w2 : world) :
  check_limits today w = (Ok false, w2) ->
  exists w1,
    _reset_if_new_day today w = (Ok tt, w1)
    /\ self w2 = self w1
    /\ session w2 = session w1
    /\ fs w2 = fs w1
    /\ total_calls w2 = total_calls w1
    /\ persisted w2 = persisted w1.
Proof.
  intros Hcheck.
  destruct (_reset_if_new_day today w) as [[[]|e] w1] eqn:Hroll.
  2:{ unfold check_limits in Hcheck. unfold_monad.
      rewrite Hroll in Hcheck. discriminate. }
  exists w1. split; [reflexivity|].
  destruct (user_api_calls (session w1)) as [c|] eqn:Hcalls.
  2:{ unfold check_limits, get_user_api_calls in Hcheck. unfold_monad.
      rewrite Hroll in Hcheck. simpl in Hcheck. rewrite Hcalls in Hcheck.
      discriminate. }
  rewrite (check_limits_after_rollover today w w1 c Hroll Hcalls) in Hcheck.
  assert (self w2 = self w1 /\ session w2 = session w1 /\ fs w2 = fs w1)
    as (Hself & Hsession & Hfs).
  { destruct (daily_user_limit (self w1) <=? c).
    - injection Hcheck as <-. repeat split.
    - destruct (getitem (usage_data (self w1)) "total_calls") as [total|e];
        [|discriminate].
      destruct (py_ge_int total (daily_total_limit (self w1))) as [[|]|e];
        try discriminate.
      injection Hcheck as <-. repeat split. }
  unfold total_calls, persisted. rewrite Hself, Hfs. repeat split; assumption.
Qed.

Lemma total_calls_dict (w : world) (n : Z) :
  total_calls w = Some n ->
  exists d t,
    usage_data (self w) = PyDict d
    /\ dict_get "total_calls" d = Some t
    /\ as_int t = Some n.
Proof.
  unfold total_calls, getitem.
  destruct (usage_data (self w)) as [| | | | |d]; try discriminate.
  destruct (dict_get "total_calls" d) as [t|] eqn:Ht; [|discriminate].
  intros Hn. exists d, t. repeat split; assumption.
Qed.

Lemma increment_usage_dict (w : world) (c n : Z) (d : list (string * pyval))
    (t : pyval) :
  user_api_calls (session w) = Some c ->
  usage_data (self w) = PyDict d ->
  dict_get "total_calls" d = Some t ->
  as_int t = Some n ->
  increment_usage w =
    (Ok tt,
     saved (set_usage_data (PyDict (dict_set "total_calls" (PyInt (n + 1)) d))
              (set_user_api_calls (c + 1) w))).
Proof.
  intros Hc Hd Ht Hn. unfold increment_usage, get_user_api_calls.
  unfold_monad. simpl. rewrite Hc. simpl. rewrite Hd. simpl. rewrite Ht.
  unfold py_add_one. rewrite Hn. simpl. apply save_usage_data_saved.
Qed.

(** C2. One [increment_usage], whatever the limits: the session counter
    and [total_calls] each grow by exactly one, every other key of the
    record and every other attribute stay as they were, and the record is
    then saved (written to the storage path whenever the file can be
    opened for writing). *)
Theorem increment_usage_effect (w : world) (c n : Z) :
  user_api_calls (session w) = Some c ->
  total_calls w = Some n ->
  exists d w',
    usage_data (self w) = PyDict d
    /\ increment_usage w = (Ok tt, w')
    /\ w' = snd (_save_usage_data
                   (set_usage_data (PyDict (dict_set "total_calls" (PyInt (n + 1)) d))
                      (set_user_api_calls (c + 1) w)))
    /\ user_api_calls (session w') = Some (c + 1)
    /\ total_calls w' = Some (n + 1)
    /\ (forall k, k <> "total_calls" ->
          getitem (usage_data (self w')) k = getitem (usage_data (self w)) k)
    /\ daily_user_limit (self w') = daily_user_limit (self w)
    /\ daily_total_limit (self w') = daily_total_limit (self w)
    /\ storage_path (self w') = storage_path (self w)
    /\ using_own_credentials (session w') = using_own_credentials (session w)
    /\ user_credentials (session w') = user_credentials (session w)
    /\ (write_errors (fs w) !! storage_path (self w) = None ->
        persisted w' = Some (json_dump (usage_data (self w')))).
Proof.
  intros Hc Hn.
  destruct (total_calls_dict w n Hn) as (d & t & Hd & Ht & Hint).
  rewrite (increment_usage_dict w c n d t Hc Hd Ht Hint).
  exists d. eexists. split; [exact Hd|]. split; [reflexivity|].
  rewrite save_usage_data_saved, saved_self, saved_session. simpl.
  repeat split.
  - unfold total_calls. rewrite saved_self. simpl.
    rewrite dict_get_set_eq. reflexivity.
  - intros k Hk. rewrite Hd. simpl. rewrite dict_get_set_ne by exact Hk.
    reflexivity.
  - intros Hw. rewrite saved_persisted by exact Hw. reflexivity.
Qed.

Lemma record_calls_from (N : nat) (today : string) (w : world) (c n : Z) :
  usage_data (self w) = PyDict [("date", PyStr today); ("total_calls", PyInt n)] ->
  user_api_calls (session w) = Some c ->
  exists w',
    record_calls N w = (Ok tt, w')
    /\ usage_data (self w') =
         PyDict [("date", PyStr today); ("total_calls", PyInt (n + Z.of_nat N))]
    /\ user_api_calls (session w') = Some (c + Z.of_nat N)
    /\ storage_path (self w') = storage_path (self w)
    /\ write_errors (fs w') = write_errors (fs w)
    /\ (write_errors (fs w) !! storage_path (self w) = None ->
        (0 < N)%nat ->
        persisted w' = Some (json_dump (usage_data (self w')))).
Proof.
  revert w c n. induction N as [|N IH]; intros w c n Hd Hc.
  - exists w. simpl. rewrite Z.add_0_r, Z.add_0_r.
    repeat split; try assumption. intros _ Hpos. inversion Hpos.
  - simpl record_calls. unfold bind.
    rewrite (increment_usage_dict w c n _ (PyInt n) Hc Hd eq_refl eq_refl).
    set (w1 := saved _).
    assert (Hd1 : usage_data (self w1) =
              PyDict [("date", PyStr today); ("total_calls", PyInt (n + 1))]).
    { unfold w1. rewrite saved_self. reflexivity. }
    assert (Hc1 : user_api_calls (session w1) = Some (c + 1)).
    { unfold w1. rewrite saved_session. reflexivity. }
    assert (Hp1 : storage_path (self w1) = storage_path (self w)).
    { unfold w1. rewrite saved_self. reflexivity. }
    assert (Hw1 : write_errors (fs w1) = write_errors (fs w)).
    { unfold w1, saved. simpl.
      destruct (write_errors (fs w) !! storage_path (self w)); reflexivity. }
    destruct (IH w1 (c + 1) (n + 1) Hd1 Hc1)
      as (w' & Hrun & Hd' & Hc' & Hp' & Hw' & Hsave).
    exists w'. rewrite Hrun.
    replace (n + Z.of_nat (S N)) with (n + 1 + Z.of_nat N) by lia.
    replace (c + Z.of_nat (S N)) with (c + 1 + Z.of_nat N) by lia.
    repeat split; try congruence.
    intros Hwr _. destruct N as [|N].
    + simpl in Hrun. injection Hrun as <-.
      unfold w1. rewrite saved_persisted; [rewrite saved_self; reflexivity|].
      exact Hwr.
    + apply Hsave; [|lia]. rewrite Hw1, Hp1. exact Hwr.
Qed.

(** C3. From a fresh record with zero calls, [N] calls of
    [increment_usage] in a row all return and leave [total_calls] equal to
    [N], under the same date; the session counter grew by [N], and the
    last save wrote that record when the file can be opened for writing. *)
Theorem record_calls_total (N : nat) (today : string) (w : world) (c : Z) :
  usage_data (self w) = fresh_record today ->
  user_api_calls (session w) = Some c ->
  exists w',
    record_calls N w = (Ok tt, w')
    /\ total_calls w' = Some (Z.of_nat N)
    /\ usage_data (self w') =
         PyDict [("date", PyStr today); ("total_calls", PyInt (Z.of_nat N))]
    /\ user_api_calls (session w') = Some (c + Z.of_nat N)
    /\ (write_errors (fs w) !! storage_path (self w) = None ->
        (0 < N)%nat ->
        persisted w' = Some (json_dump (usage_data (self w')))).
Proof.
  intros Hd Hc.
  destruct (record_calls_from N today w c 0 Hd Hc)
    as (w' & Hrun & Hd' & Hc' & _ & _ & Hsave).
  exists w'. repeat split; try assumption.
  unfold total_calls. rewrite Hd'. reflexivity.
Qed.

(** *** The day after its first rollover *)

Lemma reset_if_new_day_same_day (today : string) (w : world) :
  getitem (usage_data (self w)) "date" = Ok (PyStr today) ->
  _reset_if_new_day today w = (Ok tt, w).
Proof.
  intros Hdate. rewrite reset_if_new_day_cases, Hdate.
  replace (py_ne_str (PyStr today) today) with false; [reflexivity|].
  symmetry. apply py_ne_str_false. reflexivity.
Qed.

Lemma reset_if_new_day_sets_today (today : string) (w w1 : world) :
  _reset_if_new_day today w = (Ok tt, w1) ->
  getitem (usage_data (self w1)) "date" = Ok (PyStr today).
Proof.
  rewrite reset_if_new_day_cases.
  destruct (getitem (usage_data (self w)) "date") as [stored|e] eqn:Hdate;
    [|discriminate].
  destruct (py_ne_str stored today) eqn:Hne; intros [= <-].
  - rewrite saved_self. reflexivity.
  - apply py_ne_str_false in Hne. rewrite Hdate, Hne. reflexivity.
Qed.

(** A query is [check_limits] or [display_usage_stats]. *)
Lemma query_same_day (today : string) (w : world) (q : call) :
  q <> Record ->
  getitem (usage_data (self w)) "date" = Ok (PyStr today) ->
  self (after_call today q w) = self w
  /\ session (after_call today q w) = session w
  /\ fs (after_call today q w) = fs w.
Proof.
  intros Hq Hdate. destruct q; [| |congruence]; simpl.
  - unfold check_limits, get_user_api_calls. unfold_monad.
    rewrite (reset_if_new_day_same_day today w Hdate). simpl.
    destruct (user_api_calls (session w)) as [c|]; simpl; [|repeat split].
    destruct (daily_user_limit (self w) <=? c); simpl; [repeat split|].
    destruct (getitem (usage_data (self w)) "total_calls") as [total|e];
      simpl; [|repeat split].
    destruct (py_ge_int total (daily_total_limit (self w))) as [[|]|e];
      simpl; repeat split.
  - unfold display_usage_stats, get_user_api_calls. unfold_monad.
    rewrite (reset_if_new_day_same_day today w Hdate). simpl.
    destruct (user_api_calls (session w)) as [c|] eqn:Hc; simpl;
      [|repeat split].
    destruct (getitem (usage_data (self w)) "total_calls") as [total|e];
      simpl; [|repeat split].
    rewrite Hc.
    destruct (daily_user_limit (self w) =? 0); simpl; repeat split.
Qed.

Lemma increment_usage_keeps_date (today : string) (w : world) :
  getitem (usage_data (self w)) "date" = Ok (PyStr today) ->
  getitem (usage_data (self (snd (increment_usage w)))) "date"
    = Ok (PyStr today).
Proof.
  intros Hdate. unfold increment_usage, get_user_api_calls. unfold_monad.
  simpl. destruct (user_api_calls (session w)) as [c|]; simpl; [|exact Hdate].
  destruct (getitem (usage_data (self w)) "total_calls") as [total|e];
    simpl; [|exact Hdate].
  destruct (py_add_one total) as [total'|e]; simpl; [|exact Hdate].
  destruct (usage_data (self w)) as [| | | | |d] eqn:Hd; simpl;
    try (rewrite Hd; exact Hdate).
  rewrite save_usage_data_saved. simpl. rewrite saved_self. simpl.
  rewrite dict_get_set_ne by discriminate. exact Hdate.
Qed.

Lemma rolled_over_date (today : string) (w : world) :
  rolled_over today w ->
  getitem (usage_data (self w)) "date" = Ok (PyStr today).
Proof.
  induction 1 as [w w1 Hroll | w c Hreach IH].
  - exact (reset_if_new_day_sets_today today w w1 Hroll).
  - destruct c.
    + destruct (query_same_day today w Check) as (-> & _); [discriminate|exact IH|exact IH].
    + destruct (query_same_day today w Stats) as (-> & _); [discriminate|exact IH|exact IH].
    + exact (increment_usage_keeps_date today w IH).
Qed.

(** C5. From the first rollover of a day on, whatever calls followed it
    that day, a further [check_limits] or [display_usage_stats] on that
    day resets nothing: the rollover inside it is a no-op, and the record,
    the session counter and the files come out as they went in. *)
Theorem rollover_idempotent (today : string) (w : world) (q : call) :
  rolled_over today w ->
  q <> Record ->
  _reset_if_new_day today w = (Ok tt, w)
  /\ usage_data (self (after_call today q w)) = usage_data (self w)
  /\ total_calls (after_call today q w) = total_calls w
  /\ user_api_calls (session (after_call today q w)) = user_api_calls (session w)
  /\ fs (after_call today q w) = fs w.
Proof.
  intros Hreach Hq.
  pose proof (rolled_over_date today w Hreach) as Hdate.
  destruct (query_same_day today w q Hq Hdate) as (Hself & Hsession & Hfs).
  split; [exact (reset_if_new_day_same_day today w Hdate)|].
  unfold total_calls. rewrite Hself, Hsession, Hfs. repeat split.
Qed.

(** *** Loading and construction *)

Lemma load_usage_data_cases (today : string) (w : world) :
  _load_usage_data today w =
    match files (fs w) !! storage_path (self w) with
    | None => (Ok (fresh_record today), w)
    | Some text =>
        match read_errors (fs w) !! storage_path (self w) with
        | Some e =>
            (Ok (fresh_record today),
             emit (st_error [Lit "Error loading API usage data: "; FmtExn e]) w)
        | None =>
            match json_load text with
            | Ok v => (Ok v, w)
            | Raise e =>
                (Ok (fresh_record today),
                 emit (st_error [Lit "Error loading API usage data: "; FmtExn e]) w)
            end
        end
    end.
Proof.
  unfold _load_usage_data, os_path_exists, read_text. unfold_monad. simpl.
  destruct (files (fs w) !! storage_path (self w)) as [text|] eqn:Hfile.
  - rewrite bool_decide_eq_true_2 by (eexists; reflexivity).
    destruct (read_errors (fs w) !! storage_path (self w)); [reflexivity|].
    rewrite Hfile. destruct (json_load text); reflexivity.
  - rewrite bool_decide_eq_false_2; [reflexivity|].
    intros [x Hx]. discriminate.
Qed.

(** The session counter [__init__] leaves: zero if none was there. *)
Lemma init_outcome (ul tl : Z) (path today : string) (w : world) :
  exists w',
    __init__ ul tl path today w = (Ok tt, w')
    /\ daily_user_limit (self w') = ul
    /\ daily_total_limit (self w') = tl
    /\ storage_path (self w') = path
    /\ fs w' = fs w
    /\ user_api_calls (session w') = Some (default 0 (user_api_calls (session w)))
    /\ match files (fs w) !! path with
       | None => usage_data (self w') = fresh_record today /\ ui w' = ui w
       | Some text =>
           match read_errors (fs w) !! path with
           | Some e =>
               usage_data (self w') = fresh_record today
               /\ ui w' = (ui w ++ [st_error [Lit "Error loading API usage data: ";
                                            FmtExn e]])%list
           | None =>
               match json_load text with
               | Ok v => usage_data (self w') = v /\ ui w' = ui w
               | Raise e =>
                   usage_data (self w') = fresh_record today
                   /\ ui w' = (ui w ++ [st_error [Lit "Error loading API usage data: ";
                                                FmtExn e]])%list
               end
           end
       end.
Proof.
  unfold __init__. unfold bind at 1. unfold modify at 1. unfold bind at 1.
  rewrite load_usage_data_cases. simpl.
  destruct (files (fs w) !! path) as [text|];
    [destruct (read_errors (fs w) !! path) as [e|];
     [|destruct (json_load text) as [v|e]]|];
    unfold_monad; simpl;
    destruct (user_api_calls (session w)) as [c|] eqn:Hcalls; simpl;
    eexists; repeat split; exact Hcalls.
Qed.

(** C6 (as the code has it). Whatever the storage path holds, building the
    limiter returns without raising. When the file is missing, cannot be
    read, or holds text that does not parse, the in-memory record is
    [{date: today, total_calls: 0}]; a failed read or parse posts exactly
    one non-fatal [st.error] diagnostic carrying the exception, and a
    missing file posts nothing at all. *)
Theorem init_falls_back_to_fresh_record (ul tl : Z) (path today : string)
    (w : world) :
  (files (fs w) !! path = None ->
     exists w',
       __init__ ul tl path today w = (Ok tt, w')
       /\ usage_data (self w')
            = PyDict [("date", PyStr today); ("total_calls", PyInt 0)]
       /\ ui w' = ui w)
  /\ (forall text e,
        files (fs w) !! path = Some text ->
        read_errors (fs w) !! path = Some e ->
        exists w',
          __init__ ul tl path today w = (Ok tt, w')
          /\ usage_data (self w')
            = PyDict [("date", PyStr today); ("total_calls", PyInt 0)]
          /\ ui w' = (ui w ++ [st_error [Lit "Error loading API usage data: ";
                                       FmtExn e]])%list)
  /\ (forall text e,
        files (fs w) !! path = Some text ->
        read_errors (fs w) !! path = None ->
        json_load text = Raise e ->
        exists w',
          __init__ ul tl path today w = (Ok tt, w')
          /\ usage_data (self w')
            = PyDict [("date", PyStr today); ("total_calls", PyInt 0)]
          /\ ui w' = (ui w ++ [st_error [Lit "Error loading API usage data: ";
                                       FmtExn e]])%list).
Proof.
  destruct (init_outcome ul tl path today w)
    as (w' & Hinit & _ & _ & _ & _ & _ & Hload).
  unfold fresh_record in Hload.
  split; [|split].
  - intros Hfile. rewrite Hfile in Hload. exists w'. tauto.
  - intros text e Hfile Hread. rewrite Hfile, Hread in Hload.
    exists w'. tauto.
  - intros text e Hfile Hread Hparse. rewrite Hfile, Hread, Hparse in Hload.
    exists w'. tauto.
Qed.

Lemma check_limits_rolled (today : string) (w w1 : world) :
  _reset_if_new_day today w = (Ok tt, w1) ->
  check_limits today w = check_limits today w1.
Proof.
  intros Hroll.
  pose proof (reset_if_new_day_sets_today today w w1 Hroll) as Hdate.
  unfold check_limits, bind.
  rewrite Hroll, (reset_if_new_day_same_day today w1 Hdate). reflexivity.
Qed.

Lemma display_usage_stats_rolled (today : string) (w w1 : world) :
  _reset_if_new_day today w = (Ok tt, w1) ->
  display_usage_stats today w = display_usage_stats today w1.
Proof.
  intros Hroll.
  pose proof (reset_if_new_day_sets_today today w w1 Hroll) as Hdate.
  unfold display_usage_stats. unfold bind at 1. symmetry. unfold bind at 1.
  rewrite Hroll, (reset_if_new_day_same_day today w1 Hdate). reflexivity.
Qed.

Lemma reset_if_new_day_returns (today : string) (w : world) (stored : pyval) :
  getitem (usage_data (self w)) "date" = Ok stored ->
  exists w1, _reset_if_new_day today w = (Ok tt, w1).
Proof.
  intros Hdate. rewrite reset_if_new_day_cases, Hdate.
  destruct (py_ne_str stored today); eexists; reflexivity.
Qed.

(** [increment_usage] writes under the key [total_calls] only: the record's
    date comes out as it went in, whether the call returns or raises. *)
Lemma increment_usage_date (w : world) :
  getitem (usage_data (self (snd (increment_usage w)))) "date"
    = getitem (usage_data (self w)) "date".
Proof.
  unfold increment_usage, get_user_api_calls. unfold_monad.
  simpl. destruct (user_api_calls (session w)) as [c|]; simpl; [|reflexivity].
  destruct (getitem (usage_data (self w)) "total_calls") as [total|e];
    simpl; [|reflexivity].
  destruct (py_add_one total) as [total'|e]; simpl; [|reflexivity].
  destruct (usage_data (self w)) as [| | | | |d] eqn:Hd; simpl;
    try (rewrite Hd; reflexivity).
  rewrite save_usage_data_saved. simpl. rewrite saved_self. simpl.
  rewrite dict_get_set_ne by discriminate. reflexivity.
Qed.

(** C7 (as the code has it). The record's date is brought to today's by
    the day rollover and by nothing else. After a [check_limits] or a
    [display_usage_stats] on a record that has a date, the record's date is
    today's, even when the call goes on to raise; so a call recorded right
    after an allowed check is counted under the day it was made. A
    successful load adopts the file's value as it is, whatever date it
    carries, and [increment_usage] never touches the date: a call recorded
    without a check of that day is counted under the date the record
    already had. *)
Theorem date_is_today_after_rollover (today : string) :
  (forall w q stored,
     q <> Record ->
     getitem (usage_data (self w)) "date" = Ok stored ->
     record_date (after_call today q w) = Some (PyStr today))
  /\ (forall ul tl path w text v,
        files (fs w) !! path = Some text ->
        read_errors (fs w) !! path = None ->
        json_load text = Ok v ->
        exists w',
          __init__ ul tl path today w = (Ok tt, w')
          /\ usage_data (self w') = v)
  /\ (forall w, record_date (snd (increment_usage w)) = record_date w)
  /\ (forall w w1,
        check_limits today w = (Ok true, w1) ->
        record_date w1 = Some (PyStr today)
        /\ record_date (snd (increment_usage w1)) = Some (PyStr today)).
Proof.
  assert (Hquery : forall w q stored,
            q <> Record ->
            getitem (usage_data (self w)) "date" = Ok stored ->
            record_date (after_call today q w) = Some (PyStr today)).
  { intros w q stored Hq Hdate.
    destruct (reset_if_new_day_returns today w stored Hdate) as (w1 & Hroll).
    pose proof (reset_if_new_day_sets_today today w w1 Hroll) as Hdate1.
    assert (Hsame : after_call today q w = after_call today q w1).
    { destruct q; simpl; [| |congruence].
      - rewrite (check_limits_rolled today w w1 Hroll). reflexivity.
      - rewrite (display_usage_stats_rolled today w w1 Hroll). reflexivity. }
    destruct (query_same_day today w1 q Hq Hdate1) as (Hself & _ & _).
    unfold record_date. rewrite Hsame, Hself, Hdate1. reflexivity. }
  assert (Hrecord : forall w, record_date (snd (increment_usage w)) = record_date w).
  { intros w. unfold record_date. rewrite increment_usage_date. reflexivity. }
  split; [exact Hquery|]. split; [|split; [exact Hrecord|]].
  - intros ul tl path w text v Hfile Hread Hparse.
    destruct (init_outcome ul tl path today w)
      as (w' & Hinit & _ & _ & _ & _ & _ & Hload).
    rewrite Hfile, Hread, Hparse in Hload. exists w'. tauto.
  - intros w w1 Hcheck.
    assert (Hdate1 : record_date w1 = Some (PyStr today)).
    { destruct (getitem (usage_data (self w)) "date") as [stored|e] eqn:Hdate.
      - pose proof (Hquery w Check stored ltac:(discriminate) Hdate) as Hafter.
        simpl in Hafter. rewrite Hcheck in Hafter. exact Hafter.
      - unfold check_limits in Hcheck. unfold bind at 1 in Hcheck.
        rewrite reset_if_new_day_cases, Hdate in Hcheck. discriminate. }
    split; [exact Hdate1|]. rewrite Hrecord. exact Hdate1.
Qed.

Lemma no_date_raises (v : pyval) :
  (forall d, v = PyDict d -> dict_get "date" d = None) ->
  exists e,
    getitem v "date" = Raise e
    /\ match v with
       | PyDict _ => e = KeyError "date"
       | _ => exists msg, e = TypeError msg
       end.
Proof.
  intros Hshape. destruct v as [| | | | |d]; simpl;
    try (eexists; split; [reflexivity|eexists; reflexivity]).
  rewrite (Hshape d eq_refl). eexists. split; reflexivity.
Qed.

(** C10 (as the code has it). Text that parses to a value other than an
    object with a ['date'] key is adopted as it is: construction returns,
    posts no diagnostic and installs no fresh record. The next
    [check_limits] or [display_usage_stats] then raises at the lookup of
    ['date'], leaving the state as it was: a [KeyError] on ['date'] when
    the value is an object without that key, a [TypeError] when the value
    is not an object (a list, a string, a number, [true], [false],
    [null]). *)
Theorem wrong_shape_json_is_adopted (ul tl : Z) (path today : string)
    (w : world) (text : string) (v : pyval) :
  files (fs w) !! path = Some text ->
  read_errors (fs w) !! path = None ->
  json_load text = Ok v ->
  (forall d, v = PyDict d -> dict_get "date" d = None) ->
  exists w' e,
    __init__ ul tl path today w = (Ok tt, w')
    /\ usage_data (self w') = v
    /\ ui w' = ui w
    /\ (forall day,
          check_limits day w' = (Raise e, w')
          /\ display_usage_stats day w' = (Raise e, w'))
    /\ match v with
       | PyDict _ => e = KeyError "date"
       | _ => exists msg, e = TypeError msg
       end.
Proof.
  intros Hfile Hread Hparse Hshape.
  destruct (init_outcome ul tl path today w)
    as (w' & Hinit & _ & _ & _ & _ & _ & Hload).
  rewrite Hfile, Hread, Hparse in Hload. destruct Hload as (Hdata & Hui).
  destruct (no_date_raises v Hshape) as (e & Hraise & Hkind).
  exists w', e. repeat split; try assumption.
  - unfold check_limits. unfold bind at 1.
    rewrite reset_if_new_day_cases, Hdata, Hraise. reflexivity.
  - unfold display_usage_stats. unfold bind at 1.
    rewrite reset_if_new_day_cases, Hdata, Hraise. reflexivity.
Qed.

End LimiterFacts.

(* ===================================================================== *)
(** ** Properties of the credentials manager *)
(* ===================================================================== *)

Section CredentialFacts.
Import APICredentialsManager.

Lemma get_credentials_default (service : string) (w : world)
    (own : gmap string bool) :
  using_own_credentials (session w) = Some own ->
  default false (own !! service) = false ->
  get_credentials service w = (Ok (default_credentials (environ w) service), w).
Proof.
  intros Hown Hoff. unfold get_credentials, get_using_own_credentials.
  unfold_monad. simpl. rewrite Hown. simpl. rewrite Hoff. reflexivity.
Qed.


End CredentialFacts.

(* ===================================================================== *)
(** ** The statements at work on sample states *)
(* ===================================================================== *)

Section Samples.
Import MiniJson APILimiter.

Example foo_text_chars :
  foo_text = String "{" (String dquote ("foo" +:+ String dquote ": 1}")).
Proof. reflexivity. Qed.

Example stale_text_parses :
  json_load stale_text
  = Ok (PyDict [("date", PyStr "2024-01-01"); ("total_calls", PyInt 5)]).
Proof. vm_compute. reflexivity. Qed.

(** The walk-through with limits (user 2, total 3): the first session is
    allowed twice and then refused on its own quota; the second is allowed
    once and then refused on the global quota with one call of its own. *)
Example two_sessions_walkthrough :
  let r := two_sessions 2 3 usage_path "2024-01-02" (boot no_files ∅) in
  fst r = Ok [true; true; false; true; false]
  /\ ui (snd r) = [st_warning (user_quota_message 2);
                   st_error (total_quota_message 3)]
  /\ user_api_calls (session (snd r)) = Some 1
  /\ total_calls (snd r) = Some 3
  /\ persisted (snd r)
     = Some (dumps (PyDict [("date", PyStr "2024-01-02"); ("total_calls", PyInt 3)])).
Proof. vm_compute. repeat split. Qed.


(** C2 on a state already over both limits: the call still counts. *)
Lemma increment_usage_effect_witness :
  user_api_calls (session (running 2 3 "2024-01-02" 7 9)) = Some 9
  /\ total_calls (running 2 3 "2024-01-02" 7 9) = Some 7
  /\ exists w',
       increment_usage (running 2 3 "2024-01-02" 7 9) = (Ok tt, w')
       /\ user_api_calls (session w') = Some 10
       /\ total_calls w' = Some 8
       /\ getitem (usage_data (self w')) "date" = Ok (PyStr "2024-01-02").
Proof.
  split; [reflexivity|]. split; [reflexivity|].
  destruct (increment_usage_effect (running 2 3 "2024-01-02" 7 9) 9 7
              eq_refl eq_refl)
    as (d & w' & _ & Hrun & _ & Hcalls & Htotal & Hkeys & _).
  exists w'. repeat split; try assumption.
  rewrite Hkeys by discriminate. reflexivity.
Defined.

(** C3 for three calls from a fresh record. *)
Lemma record_calls_total_witness :
  usage_data (self (running 10 100 "2024-01-02" 0 0)) = fresh_record "2024-01-02"
  /\ exists w',
       record_calls 3 (running 10 100 "2024-01-02" 0 0) = (Ok tt, w')
       /\ total_calls w' = Some 3
       /\ persisted w'
          = Some (dumps (PyDict [("date", PyStr "2024-01-02");
                                 ("total_calls", PyInt 3)])).
Proof.
  split; [reflexivity|].
  destruct (record_calls_total 3 "2024-01-02" (running 10 100 "2024-01-02" 0 0) 0
              eq_refl eq_refl)
    as (w' & Hrun & Htotal & Hdata & _ & Hsave).
  exists w'. repeat split; try assumption.
  rewrite Hsave; [rewrite Hdata; reflexivity | reflexivity | lia].
Defined.

(** C4 on a record dated the day before, and on the same record on its
    own day. *)
Lemma reset_if_new_day_rollover_witness :
  getitem (usage_data (self (running 2 3 "2024-01-01" 7 9))) "date"
    = Ok (PyStr "2024-01-01")
  /\ (exists w',
        _reset_if_new_day "2024-01-02" (running 2 3 "2024-01-01" 7 9) = (Ok tt, w')
        /\ usage_data (self w')
           = PyDict [("date", PyStr "2024-01-02"); ("total_calls", PyInt 0)]
        /\ user_api_calls (session w') = Some 0
        /\ persisted w'
           = Some (dumps (PyDict [("date", PyStr "2024-01-02");
                                  ("total_calls", PyInt 0)])))
  /\ _reset_if_new_day "2024-01-01" (running 2 3 "2024-01-01" 7 9)
     = (Ok tt, running 2 3 "2024-01-01" 7 9).
Proof.
  split; [reflexivity|]. split.
  - destruct (proj1 (reset_if_new_day_rollover "2024-01-02"
                       (running 2 3 "2024-01-01" 7 9) (PyStr "2024-01-01") eq_refl))
      as (w' & Hroll & _ & Hdata & _ & _ & Hcalls & _ & _ & _ & Hsave);
      [discriminate|].
    exists w'. repeat split; try assumption. apply Hsave. reflexivity.
  - apply (reset_if_new_day_rollover "2024-01-01"
             (running 2 3 "2024-01-01" 7 9) (PyStr "2024-01-01") eq_refl).
    reflexivity.
Defined.

(** C5 after a rollover and two recorded calls: the counts stay at two. *)
Lemma rollover_idempotent_witness :
  rolled_over "2024-01-02" advanced
  /\ total_calls advanced = Some 2
  /\ user_api_calls (session advanced) = Some 2
  /\ total_calls (after_call "2024-01-02" Check advanced) = Some 2
  /\ user_api_calls (session (after_call "2024-01-02" Stats advanced)) = Some 2.
Proof.
  assert (Hreach : rolled_over "2024-01-02" advanced).
  { unfold advanced. apply rolled_step. apply rolled_step.
    apply (rolled_first "2024-01-02" (running 2 3 "2024-01-01" 7 9)).
    reflexivity. }
  split; [exact Hreach|]. split; [reflexivity|]. split; [reflexivity|]. split.
  - destruct (rollover_idempotent "2024-01-02" advanced Check Hreach)
      as (_ & _ & -> & _); [discriminate | reflexivity].
  - destruct (rollover_idempotent "2024-01-02" advanced Stats Hreach)
      as (_ & _ & _ & -> & _); [discriminate | reflexivity].
Defined.

(** C8 on a stale record with a per-identity limit of zero: the rollover
    writes the fresh record, the refusal that follows writes nothing. *)
Lemma check_limits_denied_frame_witness :
  exists w1 w2,
    _reset_if_new_day "2024-01-02" (running 0 3 "2024-01-01" 7 9) = (Ok tt, w1)
    /\ check_limits "2024-01-02" (running 0 3 "2024-01-01" 7 9) = (Ok false, w2)
    /\ self w2 = self w1
    /\ session w2 = session w1
    /\ fs w2 = fs w1
    /\ persisted w2 = Some (dumps (fresh_record "2024-01-02")).
Proof.
  destruct (check_limits_denied_frame "2024-01-02" (running 0 3 "2024-01-01" 7 9)
              _ eq_refl)
    as (w1 & Hroll & Hself & Hsession & Hfs & _ & _).
  exists w1. eexists. split; [exact Hroll|]. split; [reflexivity|].
  split; [exact Hself|]. split; [exact Hsession|]. split; [exact Hfs|].
  reflexivity.
Defined.

(** C6 on a missing file, a file that cannot be read, and a file that does
    not parse. *)
Lemma init_falls_back_to_fresh_record_witness :
  (exists w',
     __init__ 10 100 usage_path "2024-01-02" (boot no_files ∅) = (Ok tt, w')
     /\ usage_data (self w')
        = PyDict [("date", PyStr "2024-01-02"); ("total_calls", PyInt 0)]
     /\ ui w' = [])
  /\ (exists w',
        __init__ 10 100 usage_path "2024-01-02" (boot (locked_file stale_text) ∅)
          = (Ok tt, w')
        /\ usage_data (self w')
        = PyDict [("date", PyStr "2024-01-02"); ("total_calls", PyInt 0)]
        /\ ui w' = [st_error [Lit "Error loading API usage data: ";
                              FmtExn (OSError
                                "[Errno 13] Permission denied: 'api_usage.json'")]])
  /\ (exists w' e,
        json_load "{oops" = Raise e
        /\ __init__ 10 100 usage_path "2024-01-02" (boot (one_file "{oops") ∅)
          = (Ok tt, w')
        /\ usage_data (self w')
        = PyDict [("date", PyStr "2024-01-02"); ("total_calls", PyInt 0)]
        /\ ui w' = [st_error [Lit "Error loading API usage data: "; FmtExn e]]).
Proof.
  split; [|split].
  - apply (init_falls_back_to_fresh_record 10 100 usage_path "2024-01-02"
             (boot no_files ∅)).
    reflexivity.
  - apply (proj1 (proj2 (init_falls_back_to_fresh_record 10 100 usage_path
             "2024-01-02" (boot (locked_file stale_text) ∅))) stale_text);
      reflexivity.
  - destruct (json_load "{oops") as [v|e] eqn:Hparse; [discriminate|].
    destruct (proj2 (proj2 (init_falls_back_to_fresh_record 10 100 usage_path
                "2024-01-02" (boot (one_file "{oops") ∅))) "{oops" e
                eq_refl eq_refl Hparse)
      as (w' & Hinit & Hdata & Hui).
    exists w', e. repeat split; assumption.
Defined.

(** C6 as the specification words it does not hold for a missing file: the
    limiter is built on the fresh record and no diagnostic of any kind is
    posted, where the specification has one surfaced. *)
Lemma init_missing_file_is_silent :
  fst (__init__ 10 100 usage_path "2024-01-02" (boot no_files ∅)) = Ok tt
  /\ usage_data (self (snd (__init__ 10 100 usage_path "2024-01-02"
                              (boot no_files ∅))))
     = PyDict [("date", PyStr "2024-01-02"); ("total_calls", PyInt 0)]
  /\ ui (snd (__init__ 10 100 usage_path "2024-01-02" (boot no_files ∅))) = [].
Proof. repeat split. Qed.

(** C7 on a record dated the day before, on a file left that day, and on
    calls recorded with and without a check. *)
Lemma date_is_today_after_rollover_witness :
  record_date (running 2 3 "2024-01-01" 7 9) = Some (PyStr "2024-01-01")
  /\ record_date (after_call "2024-01-02" Check (running 2 3 "2024-01-01" 7 9))
     = Some (PyStr "2024-01-02")
  /\ record_date (after_call "2024-01-02" Stats (running 2 3 "2024-01-01" 7 9))
     = Some (PyStr "2024-01-02")
  /\ (exists w',
        __init__ 10 100 usage_path "2024-01-02" (boot (one_file stale_text) ∅)
          = (Ok tt, w')
        /\ usage_data (self w')
           = PyDict [("date", PyStr "2024-01-01"); ("total_calls", PyInt 5)])
  /\ record_date (snd (increment_usage (running 2 3 "2024-01-01" 7 9)))
     = Some (PyStr "2024-01-01")
  /\ (exists w1,
        check_limits "2024-01-02" (running 10 100 "2024-01-01" 7 9) = (Ok true, w1)
        /\ record_date (snd (increment_usage w1)) = Some (PyStr "2024-01-02")).
Proof.
  split; [reflexivity|]. split; [|split; [|split; [|split]]].
  - apply (proj1 (date_is_today_after_rollover "2024-01-02")
             (running 2 3 "2024-01-01" 7 9) Check (PyStr "2024-01-01"));
      [discriminate | reflexivity].
  - apply (proj1 (date_is_today_after_rollover "2024-01-02")
             (running 2 3 "2024-01-01" 7 9) Stats (PyStr "2024-01-01"));
      [discriminate | reflexivity].
  - apply (proj1 (proj2 (date_is_today_after_rollover "2024-01-02"))
             10 100 usage_path (boot (one_file stale_text) ∅) stale_text);
      reflexivity.
  - rewrite (proj1 (proj2 (proj2 (date_is_today_after_rollover "2024-01-02")))
               (running 2 3 "2024-01-01" 7 9)).
    reflexivity.
  - eexists. split; [reflexivity|].
    apply (proj2 (proj2 (proj2 (date_is_today_after_rollover "2024-01-02")))
             (running 10 100 "2024-01-01" 7 9)).
    reflexivity.
Defined.

(** C7 as the specification words it does not hold for a file left on an
    earlier day, in either half. The limiter is built on the second of
    January from a file that counted five calls on the first: the load
    succeeds and the record in memory is dated the day before today; and a
    call recorded then, without a check, brings the count to six under the
    date of the first, so the date is not the last day on which calls
    were accumulated. *)
Lemma stale_date_outlives_load_and_record :
  fst (__init__ 10 100 usage_path "2024-01-02" (boot (one_file stale_text) ∅))
    = Ok tt
  /\ record_date (snd (__init__ 10 100 usage_path "2024-01-02"
                         (boot (one_file stale_text) ∅)))
     = Some (PyStr "2024-01-01")
  /\ PyStr "2024-01-01" <> PyStr "2024-01-02"
  /\ fst (increment_usage (snd (__init__ 10 100 usage_path "2024-01-02"
                                  (boot (one_file stale_text) ∅))))
     = Ok tt
  /\ usage_data (self (snd (increment_usage
                              (snd (__init__ 10 100 usage_path "2024-01-02"
                                      (boot (one_file stale_text) ∅))))))
     = PyDict [("date", PyStr "2024-01-01"); ("total_calls", PyInt 6)].
Proof. repeat split. discriminate. Qed.

(** C10 on a file holding an object with the single key [foo]. *)
Lemma wrong_shape_json_is_adopted_witness :
  json_load foo_text = Ok (PyDict [("foo", PyInt 1)])
  /\ exists w',
       __init__ 10 100 usage_path "2024-01-02" (boot (one_file foo_text) ∅)
         = (Ok tt, w')
       /\ usage_data (self w') = PyDict [("foo", PyInt 1)]
       /\ ui w' = []
       /\ check_limits "2024-01-02" w' = (Raise (KeyError "date"), w')
       /\ display_usage_stats "2024-01-02" w' = (Raise (KeyError "date"), w').
Proof.
  assert (Hparse : json_load foo_text = Ok (PyDict [("foo", PyInt 1)]))
    by reflexivity.
  split; [exact Hparse|].
  destruct (wrong_shape_json_is_adopted 10 100 usage_path "2024-01-02"
              (boot (one_file foo_text) ∅) foo_text (PyDict [("foo", PyInt 1)])
              eq_refl eq_refl Hparse)
    as (w' & e & Hinit & Hdata & Hui & Hcalls & ->).
  { intros d [= <-]. reflexivity. }
  exists w'. repeat split; try assumption; apply Hcalls.
Defined.

(** C10 as the specification words it does not hold for a JSON list: the
    list is adopted, and the next [check_limits] or [display_usage_stats]
    raises a [TypeError], not a lookup error on a missing key. *)
Lemma list_json_raises_type_error :
  usage_data (self (snd (__init__ 10 100 usage_path "2024-01-02"
                           (boot (one_file list_text) ∅))))
    = PyList []
  /\ fst (check_limits "2024-01-02"
            (snd (__init__ 10 100 usage_path "2024-01-02"
                    (boot (one_file list_text) ∅))))
     = Raise (TypeError "list indices must be integers or slices, not str")
  /\ fst (display_usage_stats "2024-01-02"
            (snd (__init__ 10 100 usage_path "2024-01-02"
                    (boot (one_file list_text) ∅))))
     = Raise (TypeError "list indices must be integers or slices, not str").
Proof. repeat split. Qed.


End Samples.

(* ===================================================================== *)
(** ** The limiter under the check-then-record contract *)
(* ===================================================================== *)

Section ProtocolFacts.
Context `{JsonLib}.
Import APILimiter.

(** What an allowed check has established. *)
Lemma check_limits_allowed (today : string) (w w1 : world) :
  check_limits today w = (Ok true, w1) ->
  _reset_if_new_day today w = (Ok tt, w1)
  /\ exists c n,
       user_api_calls (session w1) = Some c
       /\ total_calls w1 = Some n
       /\ c < daily_user_limit (self w1)
       /\ n < daily_total_limit (self w1).
Proof.
  intros Hcheck.
  destruct (_reset_if_new_day today w) as [[[]|e] w0] eqn:Hroll.
  2:{ unfold check_limits in Hcheck. unfold_monad.
      rewrite Hroll in Hcheck. discriminate. }
  destruct (user_api_calls (session w0)) as [c|] eqn:Hcalls.
  2:{ unfold check_limits, get_user_api_calls in Hcheck. unfold_monad.
      rewrite Hroll in Hcheck. simpl in Hcheck. rewrite Hcalls in Hcheck.
      discriminate. }
  rewrite (check_limits_after_rollover today w w0 c Hroll Hcalls) in Hcheck.
  destruct (daily_user_limit (self w0) <=? c) eqn:Huser; [discriminate|].
  destruct (getitem (usage_data (self w0)) "total_calls") as [total|e] eqn:Hget;
    [|discriminate].
  unfold py_ge_int in Hcheck.
  destruct (as_int total) as [n|] eqn:Hint; [|discriminate].
  destruct (daily_total_limit (self w0) <=? n) eqn:Htotal; [discriminate|].
  injection Hcheck as <-. split; [reflexivity|].
  exists c, n. unfold total_calls. rewrite Hget.
  apply Z.leb_gt in Huser. apply Z.leb_gt in Htotal. repeat split; assumption.
Qed.

(** What a refusal has established. *)
Lemma check_limits_refused (today : string) (w w2 : world) :
  check_limits today w = (Ok false, w2) ->
  getitem (usage_data (self w2)) "date" = Ok (PyStr today)
  /\ exists c,
       user_api_calls (session w2) = Some c
       /\ (daily_user_limit (self w2) <= c
           \/ exists n, total_calls w2 = Some n /\ daily_total_limit (self w2) <= n).
Proof.
  intros Hcheck.
  destruct (_reset_if_new_day today w) as [[[]|e] w0] eqn:Hroll.
  2:{ unfold check_limits in Hcheck. unfold_monad.
      rewrite Hroll in Hcheck. discriminate. }
  pose proof (reset_if_new_day_sets_today today w w0 Hroll) as Hdate.
  destruct (user_api_calls (session w0)) as [c|] eqn:Hcalls.
  2:{ unfold check_limits, get_user_api_calls in Hcheck. unfold_monad.
      rewrite Hroll in Hcheck. simpl in Hcheck. rewrite Hcalls in Hcheck.
      discriminate. }
  rewrite (check_limits_after_rollover today w w0 c Hroll Hcalls) in Hcheck.
  destruct (daily_user_limit (self w0) <=? c) eqn:Huser.
  - injection Hcheck as <-. simpl. split; [exact Hdate|].
    exists c. split; [exact Hcalls|]. left. apply Z.leb_le. exact Huser.
  - destruct (getitem (usage_data (self w0)) "total_calls") as [total|e] eqn:Hget;
      [|discriminate].
    unfold py_ge_int in Hcheck.
    destruct (as_int total) as [n|] eqn:Hint; [|discriminate].
    destruct (daily_total_limit (self w0) <=? n) eqn:Htotal; [|discriminate].
    injection Hcheck as <-. simpl. split; [exact Hdate|].
    exists c. split; [exact Hcalls|]. right. exists n.
    unfold total_calls. simpl. rewrite Hget. split; [exact Hint|].
    apply Z.leb_le. exact Htotal.
Qed.

(** X1. With an integer session counter and an integer [total_calls], a
    call recorded right after an allowed check returns, adds one to each
    counter, and leaves neither above its limit. *)
Theorem allowed_then_recorded_within_limits (today : string) (w w1 : world)
    (c n : Z) :
  check_limits today w = (Ok true, w1) ->
  user_api_calls (session w1) = Some c ->
  total_calls w1 = Some n ->
  exists w2,
    increment_usage w1 = (Ok tt, w2)
    /\ user_api_calls (session w2) = Some (c + 1)
    /\ total_calls w2 = Some (n + 1)
    /\ c + 1 <= daily_user_limit (self w2)
    /\ n + 1 <= daily_total_limit (self w2).
Proof.
  intros Hcheck Hc Hn.
  destruct (check_limits_allowed today w w1 Hcheck)
    as (_ & c' & n' & Hc' & Hn' & Huser & Htotal).
  rewrite Hc in Hc'. rewrite Hn in Hn'.
  injection Hc' as <-. injection Hn' as <-.
  destruct (total_calls_dict w1 n Hn) as (d & t & Hd & Ht & Hint).
  rewrite (increment_usage_dict w1 c n d t Hc Hd Ht Hint).
  eexists. split; [reflexivity|].
  unfold total_calls. rewrite saved_self, saved_session. simpl.
  rewrite dict_get_set_eq. simpl. repeat split; lia.
Qed.

Lemma checked_call_same_day (today : string) (w : world) (c n : Z) :
  getitem (usage_data (self w)) "date" = Ok (PyStr today) ->
  user_api_calls (session w) = Some c ->
  total_calls w = Some n ->
  exists w',
    checked_call today w
      = (Ok (bool_decide (c < daily_user_limit (self w)
                          /\ n < daily_total_limit (self w))), w')
    /\ getitem (usage_data (self w')) "date" = Ok (PyStr today)
    /\ daily_user_limit (self w') = daily_user_limit (self w)
    /\ daily_total_limit (self w') = daily_total_limit (self w)
    /\ (c < daily_user_limit (self w) /\ n < daily_total_limit (self w) ->
          user_api_calls (session w') = Some (c + 1)
          /\ total_calls w' = Some (n + 1))
    /\ (~ (c < daily_user_limit (self w) /\ n < daily_total_limit (self w)) ->
          user_api_calls (session w') = Some c
          /\ total_calls w' = Some n).
Proof.
  intros Hdate Hc Hn.
  pose proof (reset_if_new_day_same_day today w Hdate) as Hroll.
  unfold checked_call. unfold bind at 1.
  rewrite (check_limits_after_rollover today w w c Hroll Hc).
  destruct (total_calls_ge w n (daily_total_limit (self w)) Hn)
    as (total & Hget & Hge).
  destruct (Z.leb_spec (daily_user_limit (self w)) c) as [Huser|Huser].
  - rewrite bool_decide_eq_false_2 by lia. eexists. split; [reflexivity|].
    simpl. repeat split; try assumption; intros; lia.
  - rewrite Hget, Hge.
    destruct (Z.leb_spec (daily_total_limit (self w)) n) as [Htotal|Htotal].
    + rewrite bool_decide_eq_false_2 by lia. eexists. split; [reflexivity|].
      simpl. repeat split; try assumption; intros; lia.
    + rewrite bool_decide_eq_true_2 by lia.
      destruct (total_calls_dict w n Hn) as (d & t & Hd & Ht & Hint).
      unfold bind. rewrite (increment_usage_dict w c n d t Hc Hd Ht Hint).
      eexists. split; [reflexivity|].
      unfold total_calls. rewrite saved_self, saved_session. simpl.
      rewrite dict_get_set_eq, dict_get_set_ne by discriminate.
      rewrite Hd in Hdate. simpl in Hdate.
      repeat split; try assumption; intros; lia.
Qed.

(** X2. On one day, [k] checked calls in a row let through exactly as many
    calls as the smaller of the two remaining quotas allows, and no more
    than [k]; both counters grow by that number. *)
Theorem checked_calls_grant (today : string) (k : nat) (w : world) (c n : Z) :
  getitem (usage_data (self w)) "date" = Ok (PyStr today) ->
  user_api_calls (session w) = Some c ->
  total_calls w = Some n ->
  exists w',
    checked_calls today k w
      = (Ok (Z.min (Z.of_nat k)
               (Z.max 0 (Z.min (daily_user_limit (self w) - c)
                               (daily_total_limit (self w) - n)))), w')
    /\ user_api_calls (session w')
       = Some (c + Z.min (Z.of_nat k)
                     (Z.max 0 (Z.min (daily_user_limit (self w) - c)
                                     (daily_total_limit (self w) - n))))
    /\ total_calls w'
       = Some (n + Z.min (Z.of_nat k)
                     (Z.max 0 (Z.min (daily_user_limit (self w) - c)
                                     (daily_total_limit (self w) - n)))).
Proof.
  revert w c n. induction k as [|k IH]; intros w c n Hdate Hc Hn.
  - exists w. simpl checked_calls. unfold ret.
    replace (Z.min (Z.of_nat 0) _) with 0 by lia.
    rewrite !Z.add_0_r. repeat split; assumption.
  - destruct (checked_call_same_day today w c n Hdate Hc Hn)
      as (w1 & Hcall & Hdate1 & Hul & Htl & Hyes & Hno).
    simpl checked_calls. unfold bind at 1. rewrite Hcall.
    destruct (decide (c < daily_user_limit (self w)
                      /\ n < daily_total_limit (self w))) as [Hroom|Hfull].
    + rewrite bool_decide_eq_true_2 by exact Hroom.
      destruct (Hyes Hroom) as (Hc1 & Hn1).
      destruct (IH w1 (c + 1) (n + 1) Hdate1 Hc1 Hn1) as (w' & Hrest & Hc' & Hn').
      unfold bind. rewrite Hrest. unfold ret. exists w'.
      rewrite Hc', Hn', Hul, Htl.
      split; [do 2 f_equal; lia|]. split; f_equal; lia.
    + rewrite bool_decide_eq_false_2 by exact Hfull.
      destruct (Hno Hfull) as (Hc1 & Hn1).
      destruct (IH w1 c n Hdate1 Hc1 Hn1) as (w' & Hrest & Hc' & Hn').
      unfold bind. rewrite Hrest. unfold ret. exists w'.
      rewrite Hc', Hn', Hul, Htl.
      split; [do 2 f_equal; lia|]. split; f_equal; lia.
Qed.

Lemma increment_usage_counter (w : world) (c : Z) :
  user_api_calls (session w) = Some c ->
  user_api_calls (session (snd (increment_usage w))) = Some (c + 1)
  /\ daily_user_limit (self (snd (increment_usage w))) = daily_user_limit (self w)
  /\ daily_total_limit (self (snd (increment_usage w))) = daily_total_limit (self w).
Proof.
  intros Hc. unfold increment_usage, get_user_api_calls. unfold_monad.
  simpl. rewrite Hc. simpl.
  destruct (getitem (usage_data (self w)) "total_calls") as [total|e];
    simpl; [|repeat split].
  destruct (py_add_one total) as [total'|e]; simpl; [|repeat split].
  destruct (setitem (usage_data (self w)) "total_calls" total') as [data'|e];
    simpl; [|repeat split].
  rewrite save_usage_data_saved. simpl. rewrite saved_self, saved_session.
  repeat split.
Qed.

(** The refusal condition is kept by every operation of the same day. *)
Lemma refusal_kept (today : string) (w : world) (q : call) :
  getitem (usage_data (self w)) "date" = Ok (PyStr today) ->
  (exists c,
     user_api_calls (session w) = Some c
     /\ (daily_user_limit (self w) <= c
         \/ exists n, total_calls w = Some n /\ daily_total_limit (self w) <= n)) ->
  getitem (usage_data (self (after_call today q w))) "date" = Ok (PyStr today)
  /\ exists c,
       user_api_calls (session (after_call today q w)) = Some c
       /\ (daily_user_limit (self (after_call today q w)) <= c
           \/ exists n, total_calls (after_call today q w) = Some n
                        /\ daily_total_limit (self (after_call today q w)) <= n).
Proof.
  intros Hdate (c & Hc & Hfull).
  assert (Hcases : q = Record \/ q <> Record)
    by (destruct q; [right|right|left]; congruence).
  destruct Hcases as [->|Hq].
  - split; [exact (increment_usage_keeps_date today w Hdate)|].
    destruct (increment_usage_counter w c Hc) as (Hc' & Hul & Htl).
    exists (c + 1). simpl. split; [exact Hc'|].
    destruct Hfull as [Huser|(n & Hn & Htotal)]; [left; rewrite Hul; lia|].
    right. exists (n + 1). rewrite Htl.
    destruct (total_calls_dict w n Hn) as (d & t & Hd & Ht & Hint).
    rewrite (increment_usage_dict w c n d t Hc Hd Ht Hint). simpl.
    unfold total_calls. rewrite saved_self. simpl.
    rewrite dict_get_set_eq. simpl. split; [reflexivity|lia].
  - destruct (query_same_day today w q Hq Hdate) as (Hself & Hsession & _).
    unfold total_calls. rewrite Hself, Hsession. split; [exact Hdate|].
    exists c. split; [exact Hc|]. exact Hfull.
Qed.

(** X3. A refusal lasts the day: once [check_limits] has answered
    not-allowed, it answers not-allowed again after any further checks,
    stats displays and recorded calls of that day. *)
Theorem refused_for_the_day (today : string) (w w2 : world) (later : list call) :
  check_limits today w = (Ok false, w2) ->
  exists w3, check_limits today (after_calls today later w2) = (Ok false, w3).
Proof.
  intros Hcheck.
  destruct (check_limits_refused today w w2 Hcheck) as (Hdate & Hfull).
  clear Hcheck. revert w2 Hdate Hfull.
  induction later as [|q later IH]; intros w2 Hdate Hfull.
  - simpl. destruct Hfull as (c & Hc & Hfull).
    rewrite (check_limits_after_rollover today w2 w2 c
               (reset_if_new_day_same_day today w2 Hdate) Hc).
    destruct (Z.leb_spec (daily_user_limit (self w2)) c) as [Huser|Huser];
      [eexists; reflexivity|].
    destruct Hfull as [Hover|(n & Hn & Htotal)]; [lia|].
    destruct (total_calls_ge w2 n (daily_total_limit (self w2)) Hn)
      as (total & -> & ->).
    apply Z.leb_le in Htotal. rewrite Htotal. eexists. reflexivity.
  - simpl. destruct (refusal_kept today w2 q Hdate Hfull) as (Hdate' & Hfull').
    exact (IH _ Hdate' Hfull').
Qed.

(** X4. A new day opens with the full quota: whatever the stale record and
    the session counter held, the first [check_limits] of a day with
    positive limits rolls over and allows the call. *)
Theorem new_day_allows (today : string) (w : world) (stored : pyval) :
  getitem (usage_data (self w)) "date" = Ok stored ->
  stored <> PyStr today ->
  0 < daily_user_limit (self w) ->
  0 < daily_total_limit (self w) ->
  exists w1,
    check_limits today w = (Ok true, w1)
    /\ w1 = snd (_save_usage_data (reset_for today w))
    /\ user_api_calls (session w1) = Some 0
    /\ total_calls w1 = Some 0.
Proof.
  intros Hdate Hne Huser Htotal.
  assert (Hroll : _reset_if_new_day today w = (Ok tt, saved (reset_for today w))).
  { rewrite reset_if_new_day_cases, Hdate.
    apply py_ne_str_true in Hne. rewrite Hne. reflexivity. }
  exists (saved (reset_for today w)).
  rewrite (check_limits_after_rollover today w _ 0 Hroll)
    by (rewrite saved_session; reflexivity).
  rewrite save_usage_data_saved. unfold total_calls.
  rewrite saved_self, saved_session. simpl.
  apply Z.leb_gt in Huser. apply Z.leb_gt in Htotal. rewrite Huser, Htotal.
  repeat split.
Qed.

(** X5. While the usage file cannot be opened for writing, recorded calls
    are still counted in memory: [N] calls all return, both counters grow
    by [N], the files are left as they were, and each call posts one
    diagnostic with the exception. *)
Theorem record_calls_offline (N : nat) (w : world) (c n : Z) (e : exn) :
  user_api_calls (session w) = Some c ->
  total_calls w = Some n ->
  write_errors (fs w) !! storage_path (self w) = Some e ->
  exists w',
    record_calls N w = (Ok tt, w')
    /\ user_api_calls (session w') = Some (c + Z.of_nat N)
    /\ total_calls w' = Some (n + Z.of_nat N)
    /\ fs w' = fs w
    /\ ui w' = (ui w ++ repeat (st_error [Lit "Error saving API usage data: ";
                                          FmtExn e]) N)%list.
Proof.
  revert w c n. induction N as [|N IH]; intros w c n Hc Hn Hw.
  - exists w. simpl. rewrite !Z.add_0_r, app_nil_r. repeat split; assumption.
  - destruct (total_calls_dict w n Hn) as (d & t & Hd & Ht & Hint).
    simpl record_calls. unfold bind.
    rewrite (increment_usage_dict w c n d t Hc Hd Ht Hint).
    set (w0 := set_usage_data _ _).
    assert (Hsaved : saved w0
              = emit (st_error [Lit "Error saving API usage data: "; FmtExn e]) w0).
    { unfold saved. unfold w0 at 1 2. simpl. rewrite Hw. reflexivity. }
    rewrite Hsaved.
    destruct (IH (emit (st_error [Lit "Error saving API usage data: "; FmtExn e]) w0)
                (c + 1) (n + 1)) as (w' & Hrun & Hc' & Hn' & Hfs & Hui).
    + reflexivity.
    + unfold total_calls. simpl. rewrite dict_get_set_eq. reflexivity.
    + exact Hw.
    + exists w'. rewrite Hrun, Hc', Hn', Hfs, Hui. simpl.
      rewrite <- app_assoc. simpl.
      repeat split; f_equal; lia.
Qed.

(** X6. What one limiter saved, the next one reads back: on a path that can
    be written and read, and for a record that [json] decodes as it encoded
    it, a limiter built right after a save by any client session holds the
    very record that was saved and posts no diagnostic. *)
Theorem init_reads_back_saved (today : string) (w : world) (s : session_state) :
  write_errors (fs w) !! storage_path (self w) = None ->
  read_errors (fs w) !! storage_path (self w) = None ->
  json_load (json_dump (usage_data (self w))) = Ok (usage_data (self w)) ->
  exists w',
    __init__ (daily_user_limit (self w)) (daily_total_limit (self w))
             (storage_path (self w)) today
             (set_session s (snd (_save_usage_data w)))
      = (Ok tt, w')
    /\ self w' = self w
    /\ ui w' = ui w
    /\ fs w' = fs (snd (_save_usage_data w))
    /\ user_api_calls (session w') = Some (default 0 (user_api_calls s)).
Proof.
  intros Hwrite Hread Hcodec. rewrite save_usage_data_saved. simpl.
  destruct (init_outcome (daily_user_limit (self w)) (daily_total_limit (self w))
              (storage_path (self w)) today (set_session s (saved w)))
    as (w' & Hinit & Hul & Htl & Hpath & Hfs & Hcalls & Hload).
  exists w'. split; [exact Hinit|].
  simpl in Hfs, Hcalls, Hload.
  assert (Hfile : files (fs (saved w)) !! storage_path (self w)
                  = Some (json_dump (usage_data (self w)))).
  { pose proof (saved_persisted w Hwrite) as Hp. unfold persisted in Hp.
    rewrite saved_self in Hp. exact Hp. }
  assert (Hsame : read_errors (fs (saved w)) = read_errors (fs w)
                  /\ ui (saved w) = ui w).
  { unfold saved. rewrite Hwrite. split; reflexivity. }
  destruct Hsame as (Hre & Hui).
  rewrite Hfile, Hre, Hread, Hcodec in Hload. destruct Hload as (Hdata & Hui').
  repeat split; try assumption.
  - destruct (self w') as [ul' tl' path' data'], (self w) as [ul tl path data].
    simpl in *. congruence.
  - rewrite Hui'. exact Hui.
Qed.

(** X7. What [display_usage_stats] shows once its rollover has run: the
    heading and the two usage lines, then the progress bar for a counter
    within a positive per-identity limit; with a per-identity limit of zero
    it raises [ZeroDivisionError] after the three lines. *)
Theorem display_usage_stats_report (today : string) (w w1 : world) (c : Z)
    (total : pyval) :
  _reset_if_new_day today w = (Ok tt, w1) ->
  user_api_calls (session w1) = Some c ->
  getitem (usage_data (self w1)) "total_calls" = Ok total ->
  (daily_user_limit (self w1) = 0 ->
     display_usage_stats today w
       = (Raise ZeroDivisionError,
          emit (st_sidebar_write [Lit "Total usage today: "; Fmt total; Lit "/";
                                  Fmt (PyInt (daily_total_limit (self w1)))])
            (emit (st_sidebar_write [Lit "Your usage today: "; Fmt (PyInt c); Lit "/";
                                     Fmt (PyInt (daily_user_limit (self w1)))])
               (emit (st_sidebar_write [Lit "### API Usage Statistics"]) w1))))
  /\ (0 < daily_user_limit (self w1) ->
      0 <= c <= daily_user_limit (self w1) ->
      display_usage_stats today w
        = (Ok tt,
           emit (st_sidebar_progress c (daily_user_limit (self w1)))
             (emit (st_sidebar_write [Lit "Total usage today: "; Fmt total; Lit "/";
                                      Fmt (PyInt (daily_total_limit (self w1)))])
                (emit (st_sidebar_write [Lit "Your usage today: "; Fmt (PyInt c);
                                         Lit "/";
                                         Fmt (PyInt (daily_user_limit (self w1)))])
                   (emit (st_sidebar_write [Lit "### API Usage Statistics"]) w1))))).
Proof.
  intros Hroll Hc Htotal.
  unfold display_usage_stats, get_user_api_calls. unfold_monad.
  rewrite Hroll. simpl. rewrite Hc. simpl. rewrite Htotal. simpl. rewrite Hc.
  split.
  - intros ->. reflexivity.
  - intros Hpos _. replace (daily_user_limit (self w1) =? 0) with false;
      [reflexivity|]. symmetry. apply Z.eqb_neq. lia.
Qed.

(** X8. Building a limiter writes nothing and forgets nothing of the
    session: it always returns, installs the limits and the path it was
    given, leaves every file as it was (a missing usage file stays
    missing), keeps a session counter that is already there and starts an
    absent one at zero. *)
Theorem init_frame (ul tl : Z) (path today : string) (w : world) :
  exists w',
    __init__ ul tl path today w = (Ok tt, w')
    /\ daily_user_limit (self w') = ul
    /\ daily_total_limit (self w') = tl
    /\ storage_path (self w') = path
    /\ fs w' = fs w
    /\ environ w' = environ w
    /\ user_api_calls (session w') = Some (default 0 (user_api_calls (session w)))
    /\ using_own_credentials (session w') = using_own_credentials (session w)
    /\ user_credentials (session w') = user_credentials (session w).
Proof.
  unfold __init__. unfold bind at 1. unfold modify at 1. unfold bind at 1.
  rewrite load_usage_data_cases. simpl.
  destruct (files (fs w) !! path) as [text|];
    [destruct (read_errors (fs w) !! path) as [e|];
     [|destruct (json_load text) as [v|e]]|];
    unfold_monad; simpl;
    destruct (user_api_calls (session w)) as [c|] eqn:Hcalls; simpl;
    eexists; (split; [reflexivity|]); simpl; rewrite ?Hcalls; repeat split.
Qed.

End ProtocolFacts.

(* ===================================================================== *)
(** ** More on the credentials manager *)
(* ===================================================================== *)

Section CredentialManagerFacts.
Import APICredentialsManager.

(** One consuming call, spelled out. *)
Lemma get_credentials_consume (service : string) (w : world)
    (own : gmap string bool) (creds : gmap string (gmap string string))
    (mine : gmap string string) (given : pyval) :
  using_own_credentials (session w) = Some own ->
  own !! service = Some true ->
  user_credentials (session w) = Some creds ->
  creds !! service = Some mine ->
  supplied_credentials service mine = Some given ->
  get_credentials service w
    = (Ok given,
       set_user_credentials (<[service := ∅]> creds)
         (set_using_own_credentials (<[service := false]> own) w)).
Proof.
  intros Hown Hmark Hcreds Hmine Hgiven.
  unfold supplied_credentials in Hgiven.
  unfold get_credentials, clear_service_credentials,
    get_using_own_credentials, get_user_credentials, index.
  unfold_monad. simpl. rewrite Hown. simpl. rewrite Hmark. simpl.
  destruct (decide (service = "aws")) as [->|Hnot_aws].
  - rewrite Hcreds. simpl. rewrite Hmine. simpl.
    destruct (mine !! "access_key_id") as [access_key|]; [|discriminate].
    destruct (mine !! "secret_key") as [secret_key|]; [|discriminate].
    destruct (mine !! "region") as [region|]; [|discriminate].
    injection Hgiven as <-. simpl. rewrite Hown. simpl. rewrite Hcreds.
    reflexivity.
  - destruct (decide (service = "openai")) as [->|Hnot_openai]; [|discriminate].
    rewrite Hcreds. simpl. rewrite Hmine. simpl.
    destruct (mine !! "api_key") as [api_key|]; [|discriminate].
    injection Hgiven as <-. simpl. rewrite Hown. simpl. rewrite Hcreds.
    reflexivity.
Qed.

Lemma no_own_credentials_off (service : string) :
  default false (no_own_credentials !! service) = false.
Proof.
  unfold no_own_credentials.
  destruct (decide (service = "aws")) as [->|Ha];
    [rewrite lookup_insert_eq; reflexivity|].
  rewrite lookup_insert_ne by congruence.
  destruct (decide (service = "openai")) as [->|Ho];
    [rewrite lookup_insert_eq; reflexivity|].
  rewrite lookup_insert_ne by congruence. rewrite lookup_empty. reflexivity.
Qed.

(** X9. In a client session that has stored nothing yet, asking for
    credentials before the manager is built raises [AttributeError]; once
    it is built, every service gets the operator's defaults (an unknown
    service an empty dict), no service counts as using its own, and asking
    changes nothing. *)
Theorem fresh_session_gets_defaults (w : world) :
  using_own_credentials (session w) = None ->
  user_credentials (session w) = None ->
  (forall service,
     get_credentials service w = (Raise (AttributeError "using_own_credentials"), w))
  /\ exists w1,
       __init__ w = (Ok tt, w1)
       /\ user_api_calls (session w1) = user_api_calls (session w)
       /\ forall service,
            get_credentials service w1
              = (Ok (default_credentials (environ w) service), w1)
            /\ is_using_own_credentials service w1 = (Ok false, w1).
Proof.
  intros Hown Hcreds. split.
  - intros service. unfold get_credentials, get_using_own_credentials.
    unfold_monad. simpl. rewrite Hown. reflexivity.
  - unfold __init__. unfold_monad. simpl. rewrite Hown. simpl. rewrite Hcreds.
    eexists. split; [reflexivity|]. split; [reflexivity|].
    intros service.
    pose proof (no_own_credentials_off service) as Hoff.
    split.
    + erewrite get_credentials_default; [reflexivity | reflexivity | exact Hoff].
    + unfold is_using_own_credentials, get_using_own_credentials.
      unfold_monad. simpl. rewrite Hoff. reflexivity.
Qed.

(** X10. Building the manager again is harmless: on any state the second
    [__init__] in a row changes nothing, so what a client typed survives
    every rerun of the script. *)
Theorem init_twice (w : world) :
  exists w1,
    __init__ w = (Ok tt, w1)
    /\ __init__ w1 = (Ok tt, w1)
    /\ (forall own, using_own_credentials (session w) = Some own ->
          using_own_credentials (session w1) = Some own)
    /\ (forall creds, user_credentials (session w) = Some creds ->
          user_credentials (session w1) = Some creds).
Proof.
  unfold __init__. unfold_monad. simpl.
  destruct (using_own_credentials (session w)) as [own|] eqn:Hown; simpl;
    destruct (user_credentials (session w)) as [creds|] eqn:Hcreds; simpl;
    eexists; (split; [reflexivity|]); simpl; rewrite ?Hown, ?Hcreds; simpl;
    rewrite ?Hown, ?Hcreds; repeat split; try discriminate;
    destruct w as [l [calls o c] f env u]; simpl in *; subst; try reflexivity;
    intros ? [= <-]; reflexivity.
Qed.

(** X11. [clear_credentials] forgets everything a client typed, whatever
    the session held: afterwards every service gets the operator's
    defaults and none counts as using its own, while the limiter's session
    counter is left alone. *)
Theorem clear_credentials_forgets (w : world) :
  exists w1,
    clear_credentials w = (Ok tt, w1)
    /\ user_api_calls (session w1) = user_api_calls (session w)
    /\ self w1 = self w
    /\ forall service,
         get_credentials service w1
           = (Ok (default_credentials (environ w) service), w1)
         /\ is_using_own_credentials service w1 = (Ok false, w1).
Proof.
  unfold clear_credentials. unfold_monad. simpl.
  eexists. split; [reflexivity|]. split; [reflexivity|]. split; [reflexivity|].
  intros service. pose proof (no_own_credentials_off service) as Hoff. split.
  - erewrite get_credentials_default; [reflexivity | reflexivity | exact Hoff].
  - unfold is_using_own_credentials, get_using_own_credentials.
    unfold_monad. simpl. rewrite Hoff. reflexivity.
Qed.

(** X12. Stored credentials are handed out only under their flag: for a
    service whose flag is off or absent, and for any name other than
    ['aws'] and ['openai'] even with a flag on, [get_credentials] returns
    the operator's defaults and changes nothing. *)
Theorem get_credentials_unflagged (service : string) (w : world)
    (own : gmap string bool) :
  using_own_credentials (session w) = Some own ->
  own !! service <> Some true \/ (service <> "aws" /\ service <> "openai") ->
  get_credentials service w = (Ok (default_credentials (environ w) service), w).
Proof.
  intros Hown Hcase.
  unfold get_credentials, get_using_own_credentials. unfold_monad. simpl.
  rewrite Hown. simpl.
  destruct (own !! service) as [[|]|] eqn:Hflag; simpl; try reflexivity.
  destruct Hcase as [Hoff|(Ha & Ho)]; [congruence|].
  rewrite decide_False by exact Ha. rewrite decide_False by exact Ho.
  reflexivity.
Qed.

(** X13. A flag without the fields behind it: when ['aws'] or ['openai'] is
    flagged but a field it needs was never stored, [get_credentials]
    raises [KeyError] on the first missing field and clears nothing, so
    the flag stays on. *)
Theorem get_credentials_incomplete (service : string) (w : world)
    (own : gmap string bool) (creds : gmap string (gmap string string))
    (mine : gmap string string) :
  using_own_credentials (session w) = Some own ->
  own !! service = Some true ->
  user_credentials (session w) = Some creds ->
  creds !! service = Some mine ->
  service = "aws" \/ service = "openai" ->
  supplied_credentials service mine = None ->
  exists key,
    get_credentials service w = (Raise (KeyError key), w)
    /\ mine !! key = None
    /\ is_using_own_credentials service w = (Ok true, w).
Proof.
  intros Hown Hmark Hcreds Hmine Hservice Hnone.
  unfold supplied_credentials in Hnone.
  unfold get_credentials, is_using_own_credentials, get_using_own_credentials,
    get_user_credentials, index.
  unfold_monad. simpl. rewrite Hown. simpl. rewrite Hmark. simpl.
  destruct Hservice as [-> | ->]; simpl in *; rewrite Hcreds; simpl;
    rewrite Hmine; simpl.
  - destruct (mine !! "access_key_id") as [access_key|] eqn:H1; simpl;
      [|exists "access_key_id"; repeat split; assumption].
    destruct (mine !! "secret_key") as [secret_key|] eqn:H2; simpl;
      [|exists "secret_key"; repeat split; assumption].
    destruct (mine !! "region") as [region|] eqn:H3; simpl;
      [discriminate|exists "region"; repeat split; assumption].
  - destruct (mine !! "api_key") as [api_key|] eqn:H1; simpl;
      [discriminate|exists "api_key"; repeat split; assumption].
Qed.

(** X14. The two services are consumed independently: handing out the
    caller's credentials for one leaves the other's flag and fields in
    place, so the other is still handed out to the next call that asks. *)
Theorem get_credentials_independent (first second : string) (w : world)
    (own : gmap string bool) (creds : gmap string (gmap string string))
    (mine1 mine2 : gmap string string) (given1 given2 : pyval) :
  first <> second ->
  using_own_credentials (session w) = Some own ->
  user_credentials (session w) = Some creds ->
  own !! first = Some true ->
  creds !! first = Some mine1 ->
  supplied_credentials first mine1 = Some given1 ->
  own !! second = Some true ->
  creds !! second = Some mine2 ->
  supplied_credentials second mine2 = Some given2 ->
  exists w1 w2,
    get_credentials first w = (Ok given1, w1)
    /\ get_credentials second w1 = (Ok given2, w2)
    /\ get_credentials first w2
       = (Ok (default_credentials (environ w) first), w2)
    /\ get_credentials second w2
       = (Ok (default_credentials (environ w) second), w2).
Proof.
  intros Hne Hown Hcreds Hflag1 Hmine1 Hgiven1 Hflag2 Hmine2 Hgiven2.
  rewrite (get_credentials_consume first w own creds mine1 given1
             Hown Hflag1 Hcreds Hmine1 Hgiven1).
  eexists. eexists. split; [reflexivity|].
  erewrite (get_credentials_consume second _ (<[first := false]> own)
              (<[first := ∅]> creds) mine2 given2);
    [ | reflexivity | rewrite lookup_insert_ne by exact Hne; exact Hflag2
      | reflexivity | rewrite lookup_insert_ne by exact Hne; exact Hmine2
      | exact Hgiven2 ].
  split; [reflexivity|]. split.
  - erewrite get_credentials_default; [reflexivity | reflexivity |].
    rewrite lookup_insert_ne by congruence. rewrite lookup_insert_eq.
    reflexivity.
  - erewrite get_credentials_default; [reflexivity | reflexivity |].
    rewrite lookup_insert_eq. reflexivity.
Qed.

(** *** The credentials form *)

(** The OpenAI block with its box ticked and a key typed. *)
Lemma openai_settings_typed (inp : widgets) (w : world)
    (own : gmap string bool) (creds : gmap string (gmap string string))
    (shown : bool) (stored : gmap string string) :
  using_own_credentials (session w) = Some own ->
  user_credentials (session w) = Some creds ->
  own !! "openai" = Some shown ->
  creds !! "openai" = Some stored ->
  use_own_openai inp = true ->
  openai_key inp <> EmptyString ->
  openai_settings inp w
    = (Ok tt,
       set_using_own_credentials (<["openai" := true]> own)
         (set_user_credentials
            (<["openai" := <["api_key" := openai_key inp]> stored]> creds)
            (emit (st_sidebar_write [Lit "#### OpenAI Settings"]) w))).
Proof.
  intros Hown Hcreds Hshown Hstored Hbox Hkey.
  unfold openai_settings, set_flag, get_using_own_credentials,
    get_user_credentials, index, nonempty.
  unfold_monad. rewrite Hbox. rewrite bool_decide_eq_false_2 by exact Hkey.
  repeat (simpl; rewrite ?Hown, ?Hshown, ?Hcreds, ?Hstored). reflexivity.
Qed.

(** Whatever is typed in it, the OpenAI block leaves the AWS entries alone. *)
Lemma openai_settings_keeps_aws (inp : widgets) (w : world)
    (own : gmap string bool) (creds : gmap string (gmap string string)) :
  using_own_credentials (session w) = Some own ->
  user_credentials (session w) = Some creds ->
  is_Some (own !! "openai") ->
  is_Some (creds !! "openai") ->
  exists w' own' creds',
    openai_settings inp w = (Ok tt, w')
    /\ using_own_credentials (session w') = Some own'
    /\ user_credentials (session w') = Some creds'
    /\ own' !! "aws" = own !! "aws"
    /\ creds' !! "aws" = creds !! "aws"
    /\ environ w' = environ w.
Proof.
  intros Hown Hcreds [shown Hshown] [stored Hstored].
  unfold openai_settings, set_flag, get_using_own_credentials,
    get_user_credentials, index.
  unfold_monad. simpl. rewrite Hown. simpl. rewrite Hshown. simpl.
  destruct (use_own_openai inp); simpl.
  - rewrite Hcreds. simpl. rewrite Hstored. simpl.
    destruct (nonempty (openai_key inp)); simpl.
    + rewrite Hcreds. simpl. rewrite Hstored. simpl. rewrite Hown.
      do 3 eexists. split; [reflexivity|]. simpl.
      repeat split; rewrite lookup_insert_ne by discriminate; reflexivity.
    + rewrite Hown. do 3 eexists. split; [reflexivity|]. simpl.
      rewrite Hcreds. repeat split.
      rewrite lookup_insert_ne by discriminate; reflexivity.
  - do 3 eexists. split; [reflexivity|]. simpl. rewrite Hown, Hcreds.
    repeat split.
Qed.

(** The AWS block with its box ticked and both keys typed. *)
Lemma aws_settings_typed (inp : widgets) (w : world)
    (own : gmap string bool) (creds : gmap string (gmap string string))
    (shown : bool) (stored : gmap string string) :
  using_own_credentials (session w) = Some own ->
  user_credentials (session w) = Some creds ->
  own !! "aws" = Some shown ->
  creds !! "aws" = Some stored ->
  use_own_aws inp = true ->
  aws_access_key inp <> EmptyString ->
  aws_secret_key inp <> EmptyString ->
  aws_settings inp w
    = (Ok tt,
       set_using_own_credentials (<["aws" := true]> own)
         (set_user_credentials
            (<["aws" := <["access_key_id" := aws_access_key inp]>
                        (<["secret_key" := aws_secret_key inp]>
                        (<["region" := aws_region inp]> stored))]> creds)
            (emit (st_sidebar_write [Lit "#### AWS Settings"]) w))).
Proof.
  intros Hown Hcreds Hshown Hstored Hbox Haccess Hsecret.
  unfold aws_settings, set_flag, get_using_own_credentials,
    get_user_credentials, index, nonempty.
  unfold_monad. rewrite Hbox. rewrite !bool_decide_eq_false_2 by assumption.
  repeat (simpl; rewrite ?Hown, ?Hshown, ?Hcreds, ?Hstored). reflexivity.
Qed.

(** Whatever is typed in it, the AWS block leaves the OpenAI entries alone. *)
Lemma aws_settings_keeps_openai (inp : widgets) (w : world)
    (own : gmap string bool) (creds : gmap string (gmap string string)) :
  using_own_credentials (session w) = Some own ->
  user_credentials (session w) = Some creds ->
  is_Some (own !! "aws") ->
  is_Some (creds !! "aws") ->
  exists w' own' creds',
    aws_settings inp w = (Ok tt, w')
    /\ using_own_credentials (session w') = Some own'
    /\ user_credentials (session w') = Some creds'
    /\ own' !! "openai" = own !! "openai"
    /\ creds' !! "openai" = creds !! "openai"
    /\ environ w' = environ w.
Proof.
  intros Hown Hcreds [shown Hshown] [stored Hstored].
  unfold aws_settings, set_flag, get_using_own_credentials,
    get_user_credentials, index.
  unfold_monad. simpl. rewrite Hown. simpl. rewrite Hshown. simpl.
  destruct (use_own_aws inp); simpl.
  - rewrite Hcreds. simpl. rewrite Hstored. simpl.
    destruct (nonempty (aws_access_key inp) && nonempty (aws_secret_key inp));
      simpl.
    + rewrite Hcreds. simpl. rewrite Hstored. simpl. rewrite Hown.
      do 3 eexists. split; [reflexivity|]. simpl.
      repeat split; rewrite lookup_insert_ne by discriminate; reflexivity.
    + rewrite Hown. do 3 eexists. split; [reflexivity|]. simpl.
      rewrite Hcreds. repeat split.
      rewrite lookup_insert_ne by discriminate; reflexivity.
  - do 3 eexists. split; [reflexivity|]. simpl. rewrite Hown, Hcreds.
    repeat split.
Qed.

(** X15. An OpenAI key typed into the form is the key handed out next:
    with the box ticked and a non-empty key, whatever the AWS block of the
    form holds, [credentials_ui] runs to its end and the next
    [get_credentials('openai')] returns the typed key. *)
Theorem typed_openai_key_is_handed_out (inp : widgets) (w : world)
    (own : gmap string bool) (creds : gmap string (gmap string string)) :
  using_own_credentials (session w) = Some own ->
  user_credentials (session w) = Some creds ->
  is_Some (own !! "openai") -> is_Some (own !! "aws") ->
  is_Some (creds !! "openai") -> is_Some (creds !! "aws") ->
  clear_clicked inp = false ->
  use_own_openai inp = true ->
  openai_key inp <> EmptyString ->
  exists w1 w2,
    credentials_ui inp w = (Ok Continues, w1)
    /\ get_credentials "openai" w1
       = (Ok (PyDict [("api_key", PyStr (openai_key inp))]), w2).
Proof.
  intros Hown Hcreds [shown Hshown] Haws [stored Hstored] Haws' Hclear Hbox Hkey.
  unfold credentials_ui. rewrite Hclear. unfold bind at 1. unfold modify at 1.
  unfold bind at 1.
  rewrite (openai_settings_typed inp
             (emit (st_sidebar_write [Lit "### API Credentials"]) w)
             own creds shown stored Hown Hcreds Hshown Hstored Hbox Hkey).
  set (w0 := set_using_own_credentials _ _).
  destruct (aws_settings_keeps_openai inp w0 (<["openai" := true]> own)
              (<["openai" := <["api_key" := openai_key inp]> stored]> creds))
    as (w1 & own1 & creds1 & Hrun & Hown1 & Hcreds1 & Hflag & Hmine & _).
  { reflexivity. }
  { reflexivity. }
  { rewrite lookup_insert_ne by discriminate. exact Haws. }
  { rewrite lookup_insert_ne by discriminate. exact Haws'. }
  unfold bind. rewrite Hrun. unfold ret.
  exists w1. eexists. split; [reflexivity|].
  apply (get_credentials_consume "openai" w1 own1 creds1
           (<["api_key" := openai_key inp]> stored)).
  - exact Hown1.
  - rewrite Hflag. apply lookup_insert_eq.
  - exact Hcreds1.
  - rewrite Hmine. apply lookup_insert_eq.
  - unfold supplied_credentials. simpl. rewrite lookup_insert_eq. reflexivity.
Qed.

(** X16. AWS credentials typed into the form are the ones handed out next:
    with the box ticked and both keys non-empty, whatever the OpenAI block
    holds, the next [get_credentials('aws')] returns the typed keys and the
    region as typed, an empty region included. *)
Theorem typed_aws_keys_are_handed_out (inp : widgets) (w : world)
    (own : gmap string bool) (creds : gmap string (gmap string string)) :
  using_own_credentials (session w) = Some own ->
  user_credentials (session w) = Some creds ->
  is_Some (own !! "openai") -> is_Some (own !! "aws") ->
  is_Some (creds !! "openai") -> is_Some (creds !! "aws") ->
  clear_clicked inp = false ->
  use_own_aws inp = true ->
  aws_access_key inp <> EmptyString ->
  aws_secret_key inp <> EmptyString ->
  exists w1 w2,
    credentials_ui inp w = (Ok Continues, w1)
    /\ get_credentials "aws" w1
       = (Ok (PyDict [("aws_access_key_id", PyStr (aws_access_key inp));
                      ("aws_secret_access_key", PyStr (aws_secret_key inp));
                      ("region_name", PyStr (aws_region inp))]), w2).
Proof.
  intros Hown Hcreds Hopenai [shown Hshown] Hopenai' [stored Hstored]
    Hclear Hbox Haccess Hsecret.
  unfold credentials_ui. rewrite Hclear. unfold bind at 1. unfold modify at 1.
  unfold bind at 1.
  destruct (openai_settings_keeps_aws inp
              (emit (st_sidebar_write [Lit "### API Credentials"]) w) own creds
              Hown Hcreds Hopenai Hopenai')
    as (w0 & own0 & creds0 & Hrun & Hown0 & Hcreds0 & Hflag & Hmine & _).
  rewrite Hrun. unfold bind at 1.
  rewrite (aws_settings_typed inp w0 own0 creds0 shown stored Hown0 Hcreds0)
    by congruence.
  unfold ret. do 2 eexists. split; [reflexivity|].
  eapply get_credentials_consume.
  - reflexivity.
  - apply lookup_insert_eq.
  - reflexivity.
  - apply lookup_insert_eq.
  - unfold supplied_credentials. simpl.
    rewrite lookup_insert_eq.
    rewrite lookup_insert_ne by discriminate. rewrite lookup_insert_eq.
    rewrite !lookup_insert_ne by discriminate. rewrite lookup_insert_eq.
    reflexivity.
Qed.

(** X17. The clear button wins over everything else in the form: with it
    pressed, [credentials_ui] writes only its heading, sets both flags to
    [False] and both stored field dicts to [{}], and ends the run for a
    rerun, whatever the session held and whatever the boxes and inputs
    hold; afterwards every service gets the operator's defaults, and the
    session counter of the limiter is as it was. *)
Theorem clear_button_resets (inp : widgets) (w : world) :
  clear_clicked inp = true ->
  exists w1,
    credentials_ui inp w = (Ok Reruns, w1)
    /\ using_own_credentials (session w1)
       = Some (<["aws" := false]> (<["openai" := false]> ∅))
    /\ user_credentials (session w1)
       = Some (<["aws" := ∅]> (<["openai" := ∅]> ∅))
    /\ ui w1 = (ui w ++ [st_sidebar_write [Lit "### API Credentials"]])%list
    /\ user_api_calls (session w1) = user_api_calls (session w)
    /\ self w1 = self w
    /\ fs w1 = fs w
    /\ environ w1 = environ w
    /\ forall service,
         get_credentials service w1
           = (Ok (default_credentials (environ w) service), w1).
Proof.
  intros Hclear. unfold credentials_ui, clear_credentials. rewrite Hclear.
  unfold_monad. simpl. eexists. split; [reflexivity|].
  do 7 (split; [reflexivity|]). intros service.
  erewrite get_credentials_default;
    [reflexivity | reflexivity | apply no_own_credentials_off].
Qed.

(** X18. Unticking a box switches nothing off: with neither box ticked the
    form writes its three headings and leaves the session as it was, so a
    service whose flag was on is still handed the stored credentials by the
    next [get_credentials]. *)
Theorem unticked_boxes_keep_flags (inp : widgets) (w : world) (service : string)
    (own : gmap string bool) (creds : gmap string (gmap string string))
    (mine : gmap string string) (given : pyval) :
  using_own_credentials (session w) = Some own ->
  user_credentials (session w) = Some creds ->
  is_Some (own !! "openai") -> is_Some (own !! "aws") ->
  clear_clicked inp = false ->
  use_own_openai inp = false ->
  use_own_aws inp = false ->
  own !! service = Some true ->
  creds !! service = Some mine ->
  supplied_credentials service mine = Some given ->
  exists w1 w2,
    credentials_ui inp w = (Ok Continues, w1)
    /\ session w1 = session w
    /\ get_credentials service w1 = (Ok given, w2).
Proof.
  intros Hown Hcreds [shown1 Hshown1] [shown2 Hshown2] Hclear Hbox1 Hbox2
    Hflag Hmine Hgiven.
  assert (Hrun : credentials_ui inp w
            = (Ok Continues,
               emit (st_sidebar_write [Lit "#### AWS Settings"])
                 (emit (st_sidebar_write [Lit "#### OpenAI Settings"])
                    (emit (st_sidebar_write [Lit "### API Credentials"]) w)))).
  { unfold credentials_ui, openai_settings, aws_settings,
      get_using_own_credentials, index.
    unfold_monad. rewrite Hclear, Hbox1, Hbox2.
    repeat (simpl; rewrite ?Hown, ?Hshown1, ?Hshown2). reflexivity. }
  rewrite Hrun. do 2 eexists. split; [reflexivity|]. split; [reflexivity|].
  eapply get_credentials_consume; [exact Hown | exact Hflag | exact Hcreds
                                  | exact Hmine | exact Hgiven].
Qed.

(** X19. AWS needs both keys: with the AWS box ticked and the access key or
    the secret key left empty, nothing that was typed is stored, the flag
    is switched off, and the next [get_credentials('aws')] returns the
    operator's defaults. *)
Theorem aws_needs_both_keys (inp : widgets) (w : world)
    (own : gmap string bool) (creds : gmap string (gmap string string)) :
  using_own_credentials (session w) = Some own ->
  user_credentials (session w) = Some creds ->
  is_Some (own !! "openai") -> is_Some (own !! "aws") ->
  is_Some (creds !! "openai") -> is_Some (creds !! "aws") ->
  clear_clicked inp = false ->
  use_own_aws inp = true ->
  aws_access_key inp = EmptyString \/ aws_secret_key inp = EmptyString ->
  exists w1 creds1,
    credentials_ui inp w = (Ok Continues, w1)
    /\ user_credentials (session w1) = Some creds1
    /\ creds1 !! "aws" = creds !! "aws"
    /\ get_credentials "aws" w1
       = (Ok (default_credentials (environ w) "aws"), w1).
Proof.
  intros Hown Hcreds Hopenai [shown Hshown] Hopenai' [stored Hstored]
    Hclear Hbox Hempty.
  unfold credentials_ui. rewrite Hclear. unfold bind at 1. unfold modify at 1.
  unfold bind at 1.
  destruct (openai_settings_keeps_aws inp
              (emit (st_sidebar_write [Lit "### API Credentials"]) w) own creds
              Hown Hcreds Hopenai Hopenai')
    as (w0 & own0 & creds0 & Hrun & Hown0 & Hcreds0 & Hflag & Hmine & Henv).
  rewrite Hrun. unfold bind at 1.
  assert (Hoff : nonempty (aws_access_key inp) && nonempty (aws_secret_key inp)
                 = false).
  { unfold nonempty. destruct Hempty as [-> | ->]; simpl;
      [reflexivity | apply andb_false_r]. }
  assert (Haws : aws_settings inp w0
                 = (Ok tt, set_using_own_credentials (<["aws" := false]> own0)
                             (emit (st_sidebar_write [Lit "#### AWS Settings"]) w0))).
  { unfold aws_settings, set_flag, get_using_own_credentials,
      get_user_credentials, index.
    unfold_monad. rewrite Hbox, Hoff. rewrite Hshown in Hflag.
    rewrite Hstored in Hmine.
    repeat (simpl; rewrite ?Hown0, ?Hcreds0, ?Hflag, ?Hmine). reflexivity. }
  rewrite Haws. unfold ret. do 2 eexists. split; [reflexivity|].
  simpl. split; [exact Hcreds0|]. split; [exact Hmine|].
  erewrite get_credentials_default;
    [simpl; rewrite Henv; reflexivity | reflexivity |].
  rewrite lookup_insert_eq. reflexivity.
Qed.

End CredentialManagerFacts.

(* ===================================================================== *)
(** ** [utils.check_credentials] *)
(* ===================================================================== *)

Section UtilsFacts.
Import Utils.

Lemma filter_nil_iff {A} (p : A -> bool) (l : list A) :
  List.filter p l = [] <-> forall x, In x l -> p x = false.
Proof.
  induction l as [|a l IH]; simpl.
  - split; [intros _ x []|reflexivity].
  - destruct (p a) eqn:Hpa.
    + split; [discriminate|]. intros Hall.
      rewrite (Hall a) in Hpa by (left; reflexivity). discriminate.
    + rewrite IH. split.
      * intros Hall x [<-|Hin]; [exact Hpa|exact (Hall x Hin)].
      * intros Hall x Hin. apply Hall. right. exact Hin.
Qed.

Lemma getenv_set (env : gmap string string) (name : string) :
  negb (truthy (getenv env name)) = false
  <-> exists v, env !! name = Some v /\ v <> EmptyString.
Proof.
  unfold getenv. destruct (env !! name) as [v|]; simpl.
  - rewrite negb_involutive, bool_decide_eq_false. split.
    + intros Hv. exists v. split; [reflexivity|exact Hv].
    + intros (v' & [= <-] & Hv). exact Hv.
  - split; [discriminate|]. intros (v & Hv & _). discriminate.
Qed.

Lemma missing_credentials_in (env : gmap string string) (name : string) :
  In name (missing_credentials env) <->
  In name required_credentials
  /\ (env !! name = None \/ env !! name = Some EmptyString).
Proof.
  unfold missing_credentials. rewrite filter_In.
  unfold getenv. destruct (env !! name) as [v|]; simpl.
  - rewrite negb_involutive, bool_decide_eq_true.
    split; intros (Hin & Hv); (split; [exact Hin|]).
    + right. rewrite Hv. reflexivity.
    + destruct Hv as [Hv|[= ->]]; [discriminate|reflexivity].
  - split; intros (Hin & _); (split; [exact Hin|]); [left|]; reflexivity.
Qed.

Lemma missing_credentials_nil (env : gmap string string) :
  missing_credentials env = [] <->
  forall name, In name required_credentials ->
    exists v, env !! name = Some v /\ v <> EmptyString.
Proof.
  unfold missing_credentials. rewrite filter_nil_iff.
  split; intros Hall name Hin; apply getenv_set; exact (Hall name Hin).
Qed.

(** X20. [check_credentials] answers true exactly when each of the five
    required variables is set to a non-empty value; it then posts nothing.
    Otherwise it answers false and posts one [st.error] naming the
    required variables that are unset or empty. It never changes the
    environment or the session. *)
Theorem check_credentials_verdict (w : world) :
  exists ok w',
    check_credentials w = (Ok ok, w')
    /\ (ok = true <->
        forall name, In name required_credentials ->
          exists v, environ w !! name = Some v /\ v <> EmptyString)
    /\ (ok = true -> w' = w)
    /\ (ok = false ->
        w' = emit (st_error
                     [Lit "Missing credentials: ";
                      Fmt (PyStr (str_join ", " (missing_credentials (environ w))))])
                  w)
    /\ (forall name,
          In name (missing_credentials (environ w)) <->
          In name required_credentials
          /\ (environ w !! name = None \/ environ w !! name = Some EmptyString)).
Proof.
  pose proof (missing_credentials_nil (environ w)) as Hall.
  unfold check_credentials. unfold_monad. simpl.
  destruct (missing_credentials (environ w)) as [|m ms] eqn:Hm.
  - exists true, w. split; [reflexivity|]. split; [|split; [|split]].
    + split; [intros _; apply Hall; reflexivity | reflexivity].
    + reflexivity.
    + discriminate.
    + intros name. rewrite <- Hm. apply missing_credentials_in.
  - exists false. eexists. split; [reflexivity|]. split; [|split; [|split]].
    + split; [discriminate|]. intros Hset. apply Hall in Hset. discriminate.
    + discriminate.
    + reflexivity.
    + intros name. rewrite <- Hm. apply missing_credentials_in.
Qed.

(** *** [load_credentials] *)

Section LoadFacts.
Context `{Platform}.

Lemma try_paths_absent (paths : list string) (p : process) :
  Forall (fun path => files (fs (proc p)) !! path = None) paths ->
  try_paths paths p = (Returns false, p).
Proof.
  destruct p as [w flag out]. simpl.
  induction 1 as [|path paths Hpath _ IH]; simpl; [reflexivity|].
  unfold p_bind at 1. unfold in_world at 1. unfold os_path_exists, gets. simpl.
  rewrite bool_decide_eq_false_2 by (rewrite Hpath; intros [x Hx]; discriminate).
  exact IH.
Qed.

Lemma try_paths_found (before after : list string) (path : string) (p : process) :
  Forall (fun path => files (fs (proc p)) !! path = None) before ->
  is_Some (files (fs (proc p)) !! path) ->
  try_paths (before ++ path :: after) p
    = match load_dotenv path (proc p) with
      | (Ok _, w1) =>
          (Returns true,
           mk_process w1 (credentials_loaded p)
             (stdout p ++ [[Lit "Loaded .env from: "; Fmt (PyStr path)]]))
      | (Raise e, w1) =>
          (Raises (Exception e), mk_process w1 (credentials_loaded p) (stdout p))
      end.
Proof.
  intros Hbefore Hpath. destruct p as [w flag out]. simpl in *.
  induction Hbefore as [|first before Hfirst _ IH]; simpl.
  - unfold p_bind, in_world, os_path_exists, gets, print, p_ret. simpl.
    rewrite bool_decide_eq_true_2 by exact Hpath. simpl.
    destruct (load_dotenv path w) as [[[]|e] w1]; reflexivity.
  - unfold p_bind at 1. unfold in_world at 1. unfold os_path_exists, gets. simpl.
    rewrite bool_decide_eq_false_2
      by (rewrite Hfirst; intros [x Hx]; discriminate).
    exact IH.
Qed.

(** X21. A [.env] file found ends the matter: the first of the four
    locations that exists is the one handed to [load_dotenv], one line
    reports it, and [load_credentials] returns without looking at the
    secrets and without checking the credentials, so it neither posts an
    error nor stops the run, whatever the environment then holds. *)
Theorem load_credentials_dotenv_first (here : string) (p : process)
    (before after : list string) (path : string) (w1 : world) :
  credentials_loaded p = false ->
  possible_paths here = (before ++ path :: after)%list ->
  Forall (fun path => files (fs (proc p)) !! path = None) before ->
  is_Some (files (fs (proc p)) !! path) ->
  load_dotenv path (proc p) = (Ok tt, w1) ->
  load_credentials here p
    = (Returns tt,
       mk_process w1 false
         (stdout p ++ [[Lit "Loaded .env from: "; Fmt (PyStr path)]])%list).
Proof.
  intros Hflag Hpaths Hbefore Hpath Hload.
  unfold load_credentials. rewrite Hflag, Hpaths. unfold p_bind at 1.
  rewrite (try_paths_found before after path p Hbefore Hpath), Hload, Hflag.
  reflexivity.
Qed.

Lemma in_world_key {A} (m : M A) (p : process) :
  credentials_loaded (snd (in_world m p)) = credentials_loaded p.
Proof. unfold in_world. destruct (m (proc p)) as [[a|e] w']; reflexivity. Qed.

Lemma p_bind_key {A B} (m : P A) (k : A -> P B) :
  (forall p, credentials_loaded (snd (m p)) = credentials_loaded p) ->
  (forall a p, credentials_loaded (snd (k a p)) = credentials_loaded p) ->
  forall p, credentials_loaded (snd (p_bind m k p)) = credentials_loaded p.
Proof.
  intros Hm Hk p. unfold p_bind. specialize (Hm p).
  destruct (m p) as [[a|r] p']; simpl in *; [rewrite Hk|]; exact Hm.
Qed.

Lemma p_try_except_key {A} (body : P A) (handler : raised -> P A) :
  (forall p, credentials_loaded (snd (body p)) = credentials_loaded p) ->
  (forall r p, credentials_loaded (snd (handler r p)) = credentials_loaded p) ->
  forall p, credentials_loaded (snd (p_try_except body handler p))
            = credentials_loaded p.
Proof.
  intros Hbody Hhandler p. unfold p_try_except. specialize (Hbody p).
  destruct (body p) as [[a|[e|msg|]] p']; simpl in *;
    rewrite ?Hhandler; exact Hbody.
Qed.

Lemma environ_setitem_key (name : string) (value : pyval) (p : process) :
  credentials_loaded (snd (environ_setitem name value p)) = credentials_loaded p.
Proof.
  unfold environ_setitem. destruct value; try reflexivity.
  destruct (has_nul s); [reflexivity|apply in_world_key].
Qed.

Lemma try_paths_key (paths : list string) (p : process) :
  credentials_loaded (snd (try_paths paths p)) = credentials_loaded p.
Proof.
  revert p. induction paths as [|path paths IH]; intros p; [reflexivity|].
  simpl. apply p_bind_key; [apply in_world_key|]. intros [|] p'; [|apply IH].
  apply p_bind_key; [apply in_world_key|]. intros _ p''.
  apply p_bind_key; reflexivity.
Qed.

Lemma copy_secrets_key (names : list string) (p : process) :
  credentials_loaded (snd (copy_secrets names p)) = credentials_loaded p.
Proof.
  revert p. induction names as [|name names IH]; intros p; [reflexivity|].
  simpl. apply p_bind_key; [apply in_world_key|]. intros value p'.
  apply p_bind_key; [apply environ_setitem_key|]. intros _ p''. apply IH.
Qed.

(** X22. [load_credentials] does not remember that it ran. With the key
    ['credentials_loaded'] in the session state it returns at once and
    changes nothing; but no path through it ever sets that key, so a call
    made without the key leaves the session without it, and the next call
    goes through the whole loading again. *)
Theorem load_credentials_never_marks (here : string) (p : process) :
  (credentials_loaded p = true -> load_credentials here p = (Returns tt, p))
  /\ credentials_loaded (snd (load_credentials here p)) = credentials_loaded p.
Proof.
  unfold load_credentials. split.
  - intros ->. reflexivity.
  - destruct (credentials_loaded p) eqn:Hflag; [exact Hflag|].
    rewrite <- Hflag. apply p_bind_key; [apply try_paths_key|].
    intros [|] p1; [reflexivity|].
    apply p_bind_key; [reflexivity|]. intros _ p2.
    apply p_bind_key.
    + apply p_try_except_key.
      * apply p_bind_key; [apply in_world_key|].
        intros [|] p3; [apply copy_secrets_key|reflexivity].
      * intros r p3. apply in_world_key.
    + intros _ p3. apply p_bind_key; [apply in_world_key|].
      intros [|] p4; reflexivity.
Qed.

(** X23. With no [.env] file at any of the four locations and no secrets
    to read, the run goes on only if the environment already has the five
    variables: the failure of the secrets is caught and posted as one
    [st.error], and [check_credentials] then decides between returning and
    [st.stop()]. *)
Theorem load_credentials_without_sources (here : string) (p : process)
    (e : exn) (w1 : world) :
  credentials_loaded p = false ->
  Forall (fun path => files (fs (proc p)) !! path = None) (possible_paths here) ->
  secrets_truthy (proc p) = (Raise e, w1) ->
  load_credentials here p
    = match missing_credentials (environ w1) with
      | [] =>
          (Returns tt,
           mk_process
             (emit (st_error [Lit "Couldn't load Streamlit secrets: "; FmtExn e]) w1)
             false
             (stdout p ++ [[Lit "No .env file found in any expected location"]]))
      | name :: names =>
          (Raises StopException,
           mk_process
             (emit (st_error [Lit "Missing credentials: ";
                              Fmt (PyStr (str_join ", " (name :: names)))])
                (emit (st_error [Lit "Couldn't load Streamlit secrets: "; FmtExn e])
                   w1))
             false
             (stdout p ++ [[Lit "No .env file found in any expected location"]]))
      end.
Proof.
  intros Hflag Habsent Hsecrets.
  unfold load_credentials. rewrite Hflag. unfold p_bind at 1.
  rewrite (try_paths_absent _ p Habsent).
  destruct p as [w flag out]. simpl in *. subst flag.
  unfold p_bind, p_try_except, in_world, print, p_ret, p_raise. simpl.
  rewrite Hsecrets. simpl.
  unfold check_credentials. unfold_monad. simpl.
  destruct (missing_credentials (environ w1)); reflexivity.
Qed.

Lemma with_secrets_lookup_other (value : string -> string) (names : list string)
    (env : gmap string string) (name : string) :
  ~ In name names -> with_secrets value names env !! name = env !! name.
Proof.
  revert env. induction names as [|k names IH]; intros env Hnot; [reflexivity|].
  unfold with_secrets in *. simpl. rewrite IH by (intros Hin; apply Hnot; right; exact Hin).
  apply lookup_insert_ne. intros ->. apply Hnot. left. reflexivity.
Qed.

Lemma with_secrets_lookup (value : string -> string) (names : list string)
    (env : gmap string string) (name : string) :
  In name names -> with_secrets value names env !! name = Some (value name).
Proof.
  revert env. induction names as [|k names IH]; intros env Hin; [destruct Hin|].
  destruct (in_dec string_dec name names) as [Hlater|Hnot].
  - unfold with_secrets in *. simpl. apply IH. exact Hlater.
  - destruct Hin as [->|Hin]; [|contradiction].
    change (with_secrets value (name :: names) env)
      with (with_secrets value names (<[name := value name]> env)).
    rewrite with_secrets_lookup_other by exact Hnot. apply lookup_insert_eq.
Qed.

(** The copying loop on secrets that are all there, as strings. *)
Lemma copy_secrets_all (value : string -> string) (names : list string)
    (w : world) (flag : bool) (out : list (list fpart)) :
  (forall name w', In name names ->
     secrets_getitem name w' = (Ok (PyStr (value name)), w')) ->
  (forall name, In name names -> has_nul (value name) = false) ->
  copy_secrets names (mk_process w flag out)
    = (Returns tt,
       mk_process (set_environ (with_secrets value names (environ w)) w) flag out).
Proof.
  revert w. induction names as [|k names IH]; intros w Hget Hnul.
  - destruct w. reflexivity.
  - simpl. unfold p_bind at 1. unfold in_world at 1. simpl.
    rewrite (Hget k w) by (left; reflexivity). simpl.
    unfold p_bind at 1. unfold environ_setitem.
    rewrite (Hnul k) by (left; reflexivity).
    unfold in_world, modify. simpl.
    rewrite IH.
    + reflexivity.
    + intros name w' Hin. apply Hget. right. exact Hin.
    + intros name Hin. apply Hnul. right. exact Hin.
Qed.

(** The copying loop up to the first secret that cannot be read. *)
Lemma copy_secrets_until (value : string -> string) (done rest : list string)
    (name : string) (e : exn) (w : world) (flag : bool) (out : list (list fpart)) :
  (forall k w', In k done ->
     secrets_getitem k w' = (Ok (PyStr (value k)), w')) ->
  (forall k, In k done -> has_nul (value k) = false) ->
  (forall w', secrets_getitem name w' = (Raise e, w')) ->
  copy_secrets (done ++ name :: rest) (mk_process w flag out)
    = (Raises (Exception e),
       mk_process (set_environ (with_secrets value done (environ w)) w) flag out).
Proof.
  revert w. induction done as [|k done IH]; intros w Hget Hnul Hfail.
  - simpl. unfold p_bind at 1. unfold in_world at 1. simpl.
    rewrite Hfail. destruct w. reflexivity.
  - simpl. unfold p_bind at 1. unfold in_world at 1. simpl.
    rewrite (Hget k w) by (left; reflexivity). simpl.
    unfold p_bind at 1. unfold environ_setitem.
    rewrite (Hnul k) by (left; reflexivity).
    unfold in_world, modify. simpl.
    rewrite IH.
    + reflexivity.
    + intros k' w' Hin. apply Hget. right. exact Hin.
    + intros k' Hin. apply Hnul. right. exact Hin.
    + exact Hfail.
Qed.

(** X24. With no [.env] file, the secrets decide: when all five secrets
    are there as strings they are copied into the environment over
    whatever it held, and no error is posted for the secrets, whether the
    run goes on or not. It goes on exactly when none of the five is empty,
    and then nothing at all is posted; with an empty one the only message
    is the [st.error] of [check_credentials], which lists exactly the
    secrets that are empty, and the run is stopped. *)
Theorem load_credentials_from_secrets (here : string) (p : process)
    (value : string -> string) :
  credentials_loaded p = false ->
  Forall (fun path => files (fs (proc p)) !! path = None) (possible_paths here) ->
  secrets_truthy (proc p) = (Ok true, proc p) ->
  (forall name w, In name secret_names ->
     secrets_getitem name w = (Ok (PyStr (value name)), w)) ->
  (forall name, In name secret_names -> has_nul (value name) = false) ->
  exists out p',
    load_credentials here p = (out, p')
    /\ environ (proc p') = with_secrets value secret_names (environ (proc p))
    /\ (forall name, In name secret_names ->
          environ (proc p') !! name = Some (value name))
    /\ stdout p'
       = (stdout p ++ [[Lit "No .env file found in any expected location"]])%list
    /\ (forall name,
          In name (missing_credentials (environ (proc p'))) <->
          In name secret_names /\ value name = EmptyString)
    /\ ((forall name, In name secret_names -> value name <> EmptyString) ->
        out = Returns tt /\ ui (proc p') = ui (proc p))
    /\ ((exists name, In name secret_names /\ value name = EmptyString) ->
        out = Raises StopException
        /\ ui (proc p')
           = (ui (proc p)
              ++ [st_error
                    [Lit "Missing credentials: ";
                     Fmt (PyStr (str_join ", "
                            (missing_credentials (environ (proc p')))))]])%list).
Proof.
  intros Hflag Habsent Htruthy Hget Hnul.
  unfold load_credentials. rewrite Hflag. unfold p_bind at 1.
  rewrite (try_paths_absent _ p Habsent).
  destruct p as [w flag out]. cbn [proc credentials_loaded stdout] in *.
  subst flag.
  unfold p_bind at 1. unfold print at 1. cbn [proc credentials_loaded stdout].
  unfold p_bind at 1. unfold p_try_except. unfold p_bind at 1.
  unfold in_world at 1. cbn [proc credentials_loaded stdout]. rewrite Htruthy.
  rewrite (copy_secrets_all value secret_names w false _ Hget Hnul).
  unfold p_bind, in_world, check_credentials. unfold_monad.
  cbn [proc credentials_loaded stdout environ set_environ].
  set (env' := with_secrets value secret_names (environ w)).
  assert (Hlookup : forall name, In name secret_names ->
                      env' !! name = Some (value name)).
  { intros name Hin. apply with_secrets_lookup. exact Hin. }
  assert (Hmissing : forall name,
            In name (missing_credentials env') <->
            In name secret_names /\ value name = EmptyString).
  { intros name. rewrite missing_credentials_in.
    change required_credentials with secret_names. split.
    - intros (Hin & Hcase). split; [exact Hin|].
      rewrite (Hlookup name Hin) in Hcase.
      destruct Hcase as [Hcase|Hcase]; congruence.
    - intros (Hin & Hempty). split; [exact Hin|]. right.
      rewrite (Hlookup name Hin), Hempty. reflexivity. }
  pose proof (missing_credentials_nil env') as Hnil.
  destruct (missing_credentials env') as [|m ms] eqn:Hm.
  - do 2 eexists. split; [reflexivity|]. cbn [proc stdout environ set_environ].
    split; [reflexivity|]. split; [exact Hlookup|]. split; [reflexivity|].
    split; [fold env'; rewrite Hm; exact Hmissing|]. split.
    + intros _. split; reflexivity.
    + intros (name & Hin & Hempty).
      destruct (proj1 Hnil eq_refl name Hin) as (v & Hv & Hne).
      rewrite (Hlookup name Hin) in Hv. congruence.
  - do 2 eexists. split; [reflexivity|].
    cbn [proc stdout environ set_environ emit ui].
    split; [reflexivity|]. split; [exact Hlookup|]. split; [reflexivity|].
    split; [fold env'; rewrite Hm; exact Hmissing|]. split.
    + intros Hfull. assert (Hnone : m :: ms = []); [|discriminate].
      apply Hnil. intros name Hin. exists (value name).
      split; [exact (Hlookup name Hin)|exact (Hfull name Hin)].
    + intros _. fold env'. rewrite Hm. split; reflexivity.
Qed.

(** X25. Copying the secrets is not undone: when the secrets before one
    name are there as strings and that name cannot be read, the earlier
    ones stay in the environment, the later ones are never asked for, the
    exception is caught and posted as one [st.error], and
    [check_credentials] then decides on the environment as it stands. *)
Theorem load_credentials_partial_secrets (here : string) (p : process)
    (value : string -> string) (done rest : list string) (name : string)
    (e : exn) :
  credentials_loaded p = false ->
  Forall (fun path => files (fs (proc p)) !! path = None) (possible_paths here) ->
  secrets_truthy (proc p) = (Ok true, proc p) ->
  secret_names = (done ++ name :: rest)%list ->
  (forall k w, In k done -> secrets_getitem k w = (Ok (PyStr (value k)), w)) ->
  (forall k, In k done -> has_nul (value k) = false) ->
  (forall w, secrets_getitem name w = (Raise e, w)) ->
  exists out p',
    load_credentials here p = (out, p')
    /\ environ (proc p') = with_secrets value done (environ (proc p))
    /\ (out = Returns tt
        /\ missing_credentials (environ (proc p')) = []
        /\ ui (proc p')
           = (ui (proc p)
              ++ [st_error [Lit "Couldn't load Streamlit secrets: "; FmtExn e]])%list
        \/ out = Raises StopException
           /\ missing_credentials (environ (proc p')) <> []
           /\ ui (proc p')
              = (ui (proc p)
                 ++ [st_error [Lit "Couldn't load Streamlit secrets: "; FmtExn e];
                     st_error [Lit "Missing credentials: ";
                               Fmt (PyStr (str_join ", "
                                  (missing_credentials (environ (proc p')))))]])%list).
Proof.
  intros Hflag Habsent Htruthy Hnames Hget Hnul Hfail.
  unfold load_credentials. rewrite Hflag. unfold p_bind at 1.
  rewrite (try_paths_absent _ p Habsent).
  destruct p as [w flag out]. cbn [proc credentials_loaded stdout] in *.
  subst flag.
  unfold p_bind at 1. unfold print at 1. cbn [proc credentials_loaded stdout].
  unfold p_bind at 1. unfold p_try_except. unfold p_bind at 1.
  unfold in_world at 1. cbn [proc credentials_loaded stdout].
  rewrite Htruthy, Hnames.
  rewrite (copy_secrets_until value done rest name e w false _ Hget Hnul Hfail).
  unfold p_bind, in_world, check_credentials. unfold_monad.
  cbn [proc credentials_loaded stdout environ set_environ emit fmt_raised].
  set (env' := with_secrets value done (environ w)).
  destruct (missing_credentials env') as [|m ms] eqn:Hm.
  - do 2 eexists. split; [reflexivity|]. simpl. split; [reflexivity|].
    left. fold env'. rewrite Hm. repeat split.
  - do 2 eexists. split; [reflexivity|]. simpl. split; [reflexivity|].
    right. fold env'. rewrite Hm. rewrite <- app_assoc. repeat split.
    discriminate.
Qed.

End LoadFacts.
End UtilsFacts.

(* ===================================================================== *)
(** ** The further statements at work on sample states *)
(* ===================================================================== *)

Section MoreSamples.
Import MiniJson APILimiter.

(** X1 on the last call the limits (user 2, total 3) let through. *)
Lemma allowed_then_recorded_within_limits_witness :
  check_limits "2024-01-02" (running 2 3 "2024-01-02" 2 1)
    = (Ok true, running 2 3 "2024-01-02" 2 1)
  /\ total_calls (running 2 3 "2024-01-02" 2 1) = Some 2
  /\ exists w2,
       increment_usage (running 2 3 "2024-01-02" 2 1) = (Ok tt, w2)
       /\ user_api_calls (session w2) = Some 2
       /\ total_calls w2 = Some 3.
Proof.
  split; [reflexivity|]. split; [reflexivity|].
  destruct (allowed_then_recorded_within_limits "2024-01-02"
              (running 2 3 "2024-01-02" 2 1) (running 2 3 "2024-01-02" 2 1)
              1 2 eq_refl eq_refl eq_refl)
    as (w2 & Hrun & Hc & Hn & _).
  exists w2. split; [exact Hrun|]. split; [exact Hc|exact Hn].
Defined.

(** X2 for five checked calls with two left of the user's quota and three
    of the global one: two go through. *)
Lemma checked_calls_grant_witness :
  exists w',
    checked_calls "2024-01-02" 5 (running 4 10 "2024-01-02" 7 2) = (Ok 2, w')
    /\ user_api_calls (session w') = Some 4
    /\ total_calls w' = Some 9.
Proof.
  destruct (checked_calls_grant "2024-01-02" 5 (running 4 10 "2024-01-02" 7 2) 2 7
              eq_refl eq_refl eq_refl)
    as (w' & Hrun & Hc & Hn).
  exists w'. split; [exact Hrun|]. split; [exact Hc|exact Hn].
Defined.

(** X3 after a refusal on the global quota, then a stats display, a
    recorded call and another check. *)
Lemma refused_for_the_day_witness :
  check_limits "2024-01-02" (running 2 3 "2024-01-02" 3 1)
    = (Ok false, emit (st_error (total_quota_message 3))
                      (running 2 3 "2024-01-02" 3 1))
  /\ exists w3,
       check_limits "2024-01-02"
         (after_calls "2024-01-02" [Stats; Record; Check]
            (emit (st_error (total_quota_message 3))
                  (running 2 3 "2024-01-02" 3 1)))
       = (Ok false, w3).
Proof.
  split; [reflexivity|].
  exact (refused_for_the_day "2024-01-02" (running 2 3 "2024-01-02" 3 1) _
           [Stats; Record; Check] eq_refl).
Defined.

(** X4 on a record exhausted the day before. *)
Lemma new_day_allows_witness :
  exists w1,
    check_limits "2024-01-02" (running 2 3 "2024-01-01" 3 2) = (Ok true, w1)
    /\ user_api_calls (session w1) = Some 0
    /\ total_calls w1 = Some 0.
Proof.
  destruct (new_day_allows "2024-01-02" (running 2 3 "2024-01-01" 3 2)
              (PyStr "2024-01-01") eq_refl)
    as (w1 & Hcheck & _ & Hc & Hn); [discriminate | simpl; lia | simpl; lia |].
  exists w1. split; [exact Hcheck|]. split; [exact Hc|exact Hn].
Defined.

(** X5 for two calls against a read-only usage file. *)
Lemma record_calls_offline_witness :
  exists w',
    record_calls 2 (write_protected (OSError "[Errno 30] Read-only file system")
                      (running 10 100 "2024-01-02" 7 1))
      = (Ok tt, w')
    /\ user_api_calls (session w') = Some 3
    /\ total_calls w' = Some 9
    /\ persisted w' = None
    /\ length (ui w') = 2%nat.
Proof.
  destruct (record_calls_offline 2
              (write_protected (OSError "[Errno 30] Read-only file system")
                 (running 10 100 "2024-01-02" 7 1))
              1 7 (OSError "[Errno 30] Read-only file system")
              eq_refl eq_refl eq_refl)
    as (w' & Hrun & Hc & Hn & Hfs & Hui).
  exists w'. split; [exact Hrun|]. split; [exact Hc|]. split; [exact Hn|].
  unfold persisted. rewrite Hfs, Hui.
  injection Hrun as <-. split; reflexivity.
Defined.

(** X6 for a second client session building its limiter on the file the
    first one just saved. *)
Lemma init_reads_back_saved_witness :
  exists w',
    __init__ 2 3 usage_path "2024-01-02"
      (set_session (mk_session None None None)
         (snd (_save_usage_data (running 2 3 "2024-01-02" 2 2))))
      = (Ok tt, w')
    /\ total_calls w' = Some 2
    /\ user_api_calls (session w') = Some 0
    /\ ui w' = [].
Proof.
  assert (Hcodec : json_load (json_dump (usage_data (self (running 2 3 "2024-01-02" 2 2))))
                   = Ok (usage_data (self (running 2 3 "2024-01-02" 2 2))))
    by (vm_compute; reflexivity).
  destruct (init_reads_back_saved "2024-01-02" (running 2 3 "2024-01-02" 2 2)
              (mk_session None None None) eq_refl eq_refl Hcodec)
    as (w' & Hinit & Hself & Hui & _ & Hc).
  exists w'. split; [exact Hinit|]. unfold total_calls. rewrite Hself.
  split; [reflexivity|]. split; [exact Hc|exact Hui].
Defined.

(** X7 with a per-identity limit of zero, and with one of ten. *)
Lemma display_usage_stats_report_witness :
  fst (display_usage_stats "2024-01-02" (running 0 3 "2024-01-02" 1 0))
    = Raise ZeroDivisionError
  /\ fst (display_usage_stats "2024-01-02" (running 10 100 "2024-01-02" 7 4))
     = Ok tt.
Proof.
  split.
  - rewrite (proj1 (display_usage_stats_report "2024-01-02"
               (running 0 3 "2024-01-02" 1 0) (running 0 3 "2024-01-02" 1 0)
               0 (PyInt 1) eq_refl eq_refl eq_refl) eq_refl).
    reflexivity.
  - rewrite (proj2 (display_usage_stats_report "2024-01-02"
               (running 10 100 "2024-01-02" 7 4) (running 10 100 "2024-01-02" 7 4)
               4 (PyInt 7) eq_refl eq_refl eq_refl));
      [reflexivity | simpl; lia | simpl; lia].
Defined.

(** X9 on a process whose session holds nothing. *)
Lemma fresh_session_gets_defaults_witness :
  APICredentialsManager.get_credentials "openai"
    (boot no_files (<["OPENAI_API_KEY" := "sk-operator"]> ∅))
    = (Raise (AttributeError "using_own_credentials"),
       boot no_files (<["OPENAI_API_KEY" := "sk-operator"]> ∅))
  /\ exists w1,
       APICredentialsManager.__init__
         (boot no_files (<["OPENAI_API_KEY" := "sk-operator"]> ∅)) = (Ok tt, w1)
       /\ APICredentialsManager.get_credentials "openai" w1
          = (Ok (PyDict [("api_key", PyStr "sk-operator")]), w1)
       /\ APICredentialsManager.get_credentials "gcp" w1 = (Ok (PyDict []), w1).
Proof.
  destruct (fresh_session_gets_defaults
              (boot no_files (<["OPENAI_API_KEY" := "sk-operator"]> ∅))
              eq_refl eq_refl)
    as (Hbefore & w1 & Hinit & _ & Hafter).
  split; [exact (Hbefore "openai")|].
  exists w1. split; [exact Hinit|].
  split; [exact (proj1 (Hafter "openai")) | exact (proj1 (Hafter "gcp"))].
Defined.

(** X12 on a session with nothing typed, and on an unknown service. *)
Lemma get_credentials_unflagged_witness :
  APICredentialsManager.get_credentials "openai" signed_out
    = (Ok (PyDict [("api_key", PyStr "sk-operator")]), signed_out)
  /\ APICredentialsManager.get_credentials "gcp" typed_credentials
     = (Ok (PyDict []), typed_credentials).
Proof.
  split.
  - apply (get_credentials_unflagged "openai" signed_out
             APICredentialsManager.no_own_credentials eq_refl).
    left. discriminate.
  - apply (get_credentials_unflagged "gcp" typed_credentials
             (<["aws" := true]> (<["openai" := true]> ∅)) eq_refl).
    right. split; discriminate.
Defined.

(** X13 on AWS flagged with only its access key stored. *)
Lemma get_credentials_incomplete_witness :
  exists key,
    APICredentialsManager.get_credentials "aws" half_typed
      = (Raise (KeyError key), half_typed)
    /\ APICredentialsManager.is_using_own_credentials "aws" half_typed
       = (Ok true, half_typed).
Proof.
  destruct (get_credentials_incomplete "aws" half_typed
              (<["aws" := true]> (<["openai" := false]> ∅))
              (<["aws" := <["access_key_id" := "AKIAUSER"]> ∅]>
                 (<["openai" := ∅]> ∅))
              (<["access_key_id" := "AKIAUSER"]> ∅)
              eq_refl eq_refl eq_refl eq_refl (or_introl eq_refl) eq_refl)
    as (key & Hraise & _ & Hflag).
  exists key. split; [exact Hraise|exact Hflag].
Defined.

(** X14 for OpenAI first and AWS second. *)
Lemma get_credentials_independent_witness :
  exists w1 w2,
    APICredentialsManager.get_credentials "openai" typed_credentials
      = (Ok (PyDict [("api_key", PyStr "sk-user")]), w1)
    /\ APICredentialsManager.get_credentials "aws" w1
       = (Ok (PyDict [("aws_access_key_id", PyStr "AKIAUSER");
                      ("aws_secret_access_key", PyStr "usersecret");
                      ("region_name", PyStr "us-east-1")]), w2)
    /\ APICredentialsManager.get_credentials "openai" w2
       = (Ok (PyDict [("api_key", PyStr "sk-operator")]), w2).
Proof.
  destruct (get_credentials_independent "openai" "aws" typed_credentials
              _ _ _ _ _ _
              ltac:(discriminate) eq_refl eq_refl eq_refl eq_refl eq_refl
              eq_refl eq_refl eq_refl)
    as (w1 & w2 & Hfirst & Hsecond & Hthird & _).
  exists w1, w2. split; [exact Hfirst|]. split; [exact Hsecond|exact Hthird].
Defined.

(** X15 for a key typed into the form of a session that had nothing. *)
Lemma typed_openai_key_is_handed_out_witness :
  exists w1 w2,
    APICredentialsManager.credentials_ui typing_openai signed_out
      = (Ok APICredentialsManager.Continues, w1)
    /\ APICredentialsManager.get_credentials "openai" w1
       = (Ok (PyDict [("api_key", PyStr "sk-typed")]), w2).
Proof.
  apply (typed_openai_key_is_handed_out typing_openai signed_out
           APICredentialsManager.no_own_credentials
           APICredentialsManager.no_user_credentials eq_refl eq_refl);
    try (eexists; reflexivity); try reflexivity; discriminate.
Defined.

(** X16 for AWS keys typed with the region left empty. *)
Lemma typed_aws_keys_are_handed_out_witness :
  exists w1 w2,
    APICredentialsManager.credentials_ui typing_aws signed_out
      = (Ok APICredentialsManager.Continues, w1)
    /\ APICredentialsManager.get_credentials "aws" w1
       = (Ok (PyDict [("aws_access_key_id", PyStr "AKIATYPED");
                      ("aws_secret_access_key", PyStr "typedsecret");
                      ("region_name", PyStr EmptyString)]), w2).
Proof.
  apply (typed_aws_keys_are_handed_out typing_aws signed_out
           APICredentialsManager.no_own_credentials
           APICredentialsManager.no_user_credentials eq_refl eq_refl);
    try (eexists; reflexivity); try reflexivity; discriminate.
Defined.

(** X17 with the button pressed and every box ticked, on a session that
    had both services flagged and their fields stored. *)
Lemma clear_button_resets_witness :
  exists w1,
    APICredentialsManager.credentials_ui pressing_clear typed_credentials
      = (Ok APICredentialsManager.Reruns, w1)
    /\ using_own_credentials (session w1)
       = Some (<["aws" := false]> (<["openai" := false]> ∅))
    /\ user_credentials (session w1)
       = Some (<["aws" := ∅]> (<["openai" := ∅]> ∅))
    /\ APICredentialsManager.get_credentials "openai" w1
       = (Ok (PyDict [("api_key", PyStr "sk-operator")]), w1).
Proof.
  destruct (clear_button_resets pressing_clear typed_credentials eq_refl)
    as (w1 & Hrun & Hown & Hcreds & _ & _ & _ & _ & _ & Hafter).
  exists w1. split; [exact Hrun|]. split; [exact Hown|].
  split; [exact Hcreds|exact (Hafter "openai")].
Defined.

(** X18 on a session with both flags on and no box ticked. *)
Lemma unticked_boxes_keep_flags_witness :
  exists w1 w2,
    APICredentialsManager.credentials_ui nothing_ticked typed_credentials
      = (Ok APICredentialsManager.Continues, w1)
    /\ session w1 = session typed_credentials
    /\ APICredentialsManager.get_credentials "openai" w1
       = (Ok (PyDict [("api_key", PyStr "sk-user")]), w2).
Proof.
  apply (unticked_boxes_keep_flags nothing_ticked typed_credentials "openai"
           _ _ (<["api_key" := "sk-user"]> ∅) _ eq_refl eq_refl);
    try (eexists; reflexivity); reflexivity.
Defined.

(** X19 with the access key typed and the secret key left empty. *)
Lemma aws_needs_both_keys_witness :
  exists w1 creds1,
    APICredentialsManager.credentials_ui aws_without_secret typed_credentials
      = (Ok APICredentialsManager.Continues, w1)
    /\ user_credentials (session w1) = Some creds1
    /\ creds1 !! "aws"
       = Some (<["access_key_id" := "AKIAUSER"]>
                 (<["secret_key" := "usersecret"]>
                 (<["region" := "us-east-1"]> ∅)))
    /\ APICredentialsManager.get_credentials "aws" w1
       = (Ok (PyDict [("aws_access_key_id", PyStr "AKIAOPERATOR");
                      ("aws_secret_access_key", PyStr "operatorsecret");
                      ("region_name", PyStr "eu-west-1")]), w1).
Proof.
  destruct (aws_needs_both_keys aws_without_secret typed_credentials _ _
              eq_refl eq_refl)
    as (w1 & creds1 & Hrun & Hcreds & Hkept & Hafter);
    try (eexists; reflexivity); try reflexivity.
  { right. reflexivity. }
  exists w1, creds1. split; [exact Hrun|]. split; [exact Hcreds|].
  split; [rewrite Hkept; reflexivity|exact Hafter].
Defined.

End MoreSamples.

Section LoadSamples.
Import Utils.

(** X21 on the development machine: the file one level up is the one
    loaded, and the run goes on with four variables still missing. *)
Lemma load_credentials_dotenv_first_witness :
  exists w1,
    load_credentials (H := local_platform) "/app/src" local_process
      = (Returns tt,
         mk_process w1 false [[Lit "Loaded .env from: "; Fmt (PyStr "../.env")]])
    /\ environ w1 = <["OPENAI_API_KEY" := "sk-local"]> ∅
    /\ ui w1 = []
    /\ length (missing_credentials (environ w1)) = 4%nat.
Proof.
  eexists. split.
  - apply (load_credentials_dotenv_first (H := local_platform) "/app/src"
             local_process [".env"] ["/app/src/.env"; "/app/src/../.env"] "../.env").
    + reflexivity.
    + reflexivity.
    + repeat constructor.
    + eexists. reflexivity.
    + reflexivity.
  - repeat split.
Defined.

(** X22 on a session that has the key, and on one that has not. *)
Lemma load_credentials_never_marks_witness :
  load_credentials (H := local_platform) "/app/src"
    (mk_process (proc local_process) true [])
    = (Returns tt, mk_process (proc local_process) true [])
  /\ credentials_loaded
       (snd (load_credentials (H := local_platform) "/app/src" local_process))
     = false.
Proof.
  split.
  - apply (load_credentials_never_marks (H := local_platform)). reflexivity.
  - apply (load_credentials_never_marks (H := local_platform)).
Defined.

(** X23 on a machine with no [.env] file, no secrets and an empty
    environment: the run is stopped. *)
Lemma load_credentials_without_sources_witness :
  fst (load_credentials (H := bare_platform) "/app/src" cloud_process)
    = Raises StopException
  /\ length (ui (proc (snd (load_credentials (H := bare_platform) "/app/src"
                              cloud_process)))) = 2%nat.
Proof.
  rewrite (load_credentials_without_sources (H := bare_platform) "/app/src"
             cloud_process (OSError "No secrets files found") (proc cloud_process)
             eq_refl);
    [split; reflexivity | repeat constructor | reflexivity].
Defined.

Lemma cloud_secrets_lookup (name : string) (w : world) :
  In name secret_names ->
  secrets_getitem (Platform := cloud_platform) name w
    = (Ok (PyStr (cloud_values name)), w).
Proof.
  intros Hin. simpl in Hin.
  destruct Hin as [<-|[<-|[<-|[<-|[<-|[]]]]]]; reflexivity.
Qed.

Lemma cloud_values_clean (name : string) :
  In name secret_names -> has_nul (cloud_values name) = false.
Proof.
  intros Hin. simpl in Hin.
  destruct Hin as [<-|[<-|[<-|[<-|[<-|[]]]]]]; reflexivity.
Qed.

Lemma cloud_values_nonempty (name : string) :
  In name secret_names -> cloud_values name <> EmptyString.
Proof.
  intros Hin. simpl in Hin.
  destruct Hin as [<-|[<-|[<-|[<-|[<-|[]]]]]]; discriminate.
Qed.

Lemma tokenless_secrets_lookup (name : string) (w : world) :
  In name secret_names ->
  secrets_getitem (Platform := tokenless_platform) name w
    = (Ok (PyStr (tokenless_values name)), w).
Proof.
  intros Hin. simpl in Hin.
  destruct Hin as [<-|[<-|[<-|[<-|[<-|[]]]]]]; reflexivity.
Qed.

Lemma tokenless_values_clean (name : string) :
  In name secret_names -> has_nul (tokenless_values name) = false.
Proof.
  intros Hin. simpl in Hin.
  destruct Hin as [<-|[<-|[<-|[<-|[<-|[]]]]]]; reflexivity.
Qed.

(** X24 on the deployment with all five secrets, and on the one whose
    Hugging Face token is empty. *)
Lemma load_credentials_from_secrets_witness :
  (exists p',
     load_credentials (H := cloud_platform) "/app/src" cloud_process
       = (Returns tt, p')
     /\ environ (proc p') !! "HUGGINGFACE_TOKEN" = Some "hf-cloud"
     /\ ui (proc p') = [])
  /\ (exists p',
        load_credentials (H := tokenless_platform) "/app/src" cloud_process
          = (Raises StopException, p')
        /\ ui (proc p')
           = [st_error [Lit "Missing credentials: ";
                        Fmt (PyStr "HUGGINGFACE_TOKEN")]]).
Proof.
  split.
  - destruct (load_credentials_from_secrets (H := cloud_platform) "/app/src"
                cloud_process cloud_values eq_refl)
      as (out & p' & Hrun & _ & Hlookup & _ & _ & Hfull & _).
    + repeat constructor.
    + reflexivity.
    + intros name w Hin. exact (cloud_secrets_lookup name w Hin).
    + exact cloud_values_clean.
    + destruct (Hfull cloud_values_nonempty) as (-> & Hui).
      exists p'. split; [exact Hrun|]. split; [|exact Hui].
      rewrite (Hlookup "HUGGINGFACE_TOKEN") by (simpl; tauto). reflexivity.
  - destruct (load_credentials_from_secrets (H := tokenless_platform) "/app/src"
                cloud_process tokenless_values eq_refl)
      as (out & p' & Hrun & Henv & _ & _ & _ & _ & Hempty).
    + repeat constructor.
    + reflexivity.
    + intros name w Hin. exact (tokenless_secrets_lookup name w Hin).
    + exact tokenless_values_clean.
    + destruct Hempty as (-> & Hui).
      { exists "HUGGINGFACE_TOKEN". split; [simpl; tauto|reflexivity]. }
      exists p'. split; [exact Hrun|]. rewrite Hui, Henv. reflexivity.
Defined.

(** X25 on the deployment whose secrets end after the first two. *)
Lemma load_credentials_partial_secrets_witness :
  exists p',
    load_credentials (H := half_cloud_platform) "/app/src" cloud_process
      = (Raises StopException, p')
    /\ environ (proc p')
       = <["AWS_ACCESS_KEY_ID" := "AKIACLOUD"]>
           (<["OPENAI_API_KEY" := "sk-cloud"]> ∅).
Proof.
  destruct (load_credentials_partial_secrets (H := half_cloud_platform) "/app/src"
              cloud_process cloud_values
              ["OPENAI_API_KEY"; "AWS_ACCESS_KEY_ID"]
              ["AWS_REGION"; "HUGGINGFACE_TOKEN"] "AWS_SECRET_ACCESS_KEY"
              (KeyError "AWS_SECRET_ACCESS_KEY") eq_refl)
    as (out & p' & Hrun & Henv & Hout).
  - repeat constructor.
  - reflexivity.
  - reflexivity.
  - intros k w Hin. simpl in Hin. destruct Hin as [<-|[<-|[]]]; reflexivity.
  - intros k Hin. simpl in Hin. destruct Hin as [<-|[<-|[]]]; reflexivity.
  - intros w. reflexivity.
  - exists p'. split; [|exact Henv].
    destruct Hout as [(_ & Hnone & _)|(-> & _)]; [|exact Hrun].
    rewrite Henv in Hnone. discriminate.
Defined.

End LoadSamples.
